(** * The Gazell link shim ([gazell_shim.c]): link state, completion
      handlers and the public operations, with their properties.

    The shim sits on top of the Nordic Gazell engine ([nrf_gzll_*]).  The
    engine is not part of the shim: it is an interface here
    ([GazellEngine]), and everything below holds for every engine.  A
    small scripted engine ([Mock]) is used to run the operations on
    concrete inputs. *)

From Stdlib Require Import ZArith Lia Bool List.
From stdpp Require Import base tactics option list.
Import ListNotations.

Local Open Scope Z_scope.

(** ** Header: error codes, configuration, roles ([gazell_shim.h]) *)

Inductive gz_error_t : Type :=
  | GZ_OK
  | GZ_ERR_SEND_FAILED
  | GZ_ERR_RECEIVE_FAILED
  | GZ_ERR_FRAME_TOO_LARGE
  | GZ_ERR_NOT_INITIALIZED
  | GZ_ERR_BUSY
  | GZ_ERR_INVALID_CONFIG
  | GZ_ERR_HARDWARE.

(** The integer value of each enumerator. *)
Definition gz_error_code (e : gz_error_t) : Z :=
  match e with
  | GZ_OK => 0
  | GZ_ERR_SEND_FAILED => -1
  | GZ_ERR_RECEIVE_FAILED => -2
  | GZ_ERR_FRAME_TOO_LARGE => -3
  | GZ_ERR_NOT_INITIALIZED => -4
  | GZ_ERR_BUSY => -5
  | GZ_ERR_INVALID_CONFIG => -6
  | GZ_ERR_HARDWARE => -7
  end.

(** [gz_config_t].  Scalar fields are the values of their C types:
    [uint8_t] in [0,256), [int8_t] in [-128,128), [uint16_t] in [0,65536). *)
Record gz_config_t : Type := {
  channel : Z;
  data_rate : Z;
  tx_power : Z;
  max_retries : Z;
  ack_timeout_us : Z;
  base_address : list Z;
  address_prefix : Z
}.

(** [gz_mode_t] is a C enumeration: a caller can pass any integer, so a
    role is an integer and the two enumerators are constants. *)
Definition gz_mode_t : Type := Z.
Definition GZ_MODE_DEVICE : gz_mode_t := 0.
Definition GZ_MODE_HOST : gz_mode_t := 1.

Definition MAX_PAYLOAD_LENGTH : Z := 32.

(** The budget of the wait loop of [gz_send],
    [volatile uint32_t timeout = 100000]. *)
Definition TX_TIMEOUT : Z := 100000.
Arguments TX_TIMEOUT : simpl never.

(** ** The engine interface ([nrf_gzll.h]) *)

Inductive nrf_gzll_mode_t : Type :=
  | NRF_GZLL_MODE_DEVICE
  | NRF_GZLL_MODE_HOST.

Inductive nrf_gzll_datarate_t : Type :=
  | NRF_GZLL_DATARATE_250KBIT
  | NRF_GZLL_DATARATE_1MBIT
  | NRF_GZLL_DATARATE_2MBIT.

(** The completion events the engine raises from interrupt context, one
    per callback of the shim; the argument is the pipe. *)
Inductive gzll_event : Type :=
  | EvDeviceTxSuccess (pipe : Z)
  | EvDeviceTxFailed (pipe : Z)
  | EvHostRxDataReady (pipe : Z)
  | EvDisabled.

(** The primitives the shim calls, as state transformers on the engine.
    Primitives whose result the shim ignores only return the new engine.
    [nrf_gzll_fetch_packet_from_rx_fifo pipe buf len] answers with the
    success flag and with what it left in the buffer and in the length
    cell it was handed.  [radio_activity] is the engine's own progress
    between two instructions of a polling caller: a new engine state and
    the completion events raised meanwhile. *)
Class GazellEngine (engine : Type) : Type := {
  nrf_gzll_init : nrf_gzll_mode_t -> engine -> bool * engine;
  nrf_gzll_enable : engine -> bool * engine;
  nrf_gzll_disable : engine -> engine;
  nrf_gzll_is_enabled : engine -> bool;
  nrf_gzll_set_base_address_0 : Z -> engine -> engine;
  nrf_gzll_set_address_prefix_byte : Z -> Z -> engine -> engine;
  nrf_gzll_set_tx_power : Z -> engine -> engine;
  nrf_gzll_set_datarate : nrf_gzll_datarate_t -> engine -> engine;
  nrf_gzll_set_channel_table : list Z -> Z -> engine -> engine;
  nrf_gzll_set_channel_table_size : Z -> engine -> engine;
  nrf_gzll_set_max_tx_attempts : Z -> engine -> engine;
  nrf_gzll_set_timeslot_period : Z -> engine -> engine;
  nrf_gzll_add_packet_to_tx_fifo :
    Z -> list Byte.byte -> Z -> engine -> bool * engine;
  nrf_gzll_fetch_packet_from_rx_fifo :
    Z -> list Byte.byte -> Z -> engine -> (bool * list Byte.byte * Z) * engine;
  nrf_gzll_get_tx_fifo_packet_count : Z -> engine -> Z;
  nrf_gzll_flush_tx_fifo : Z -> engine -> engine;
  nrf_gzll_flush_rx_fifo : Z -> engine -> engine;
  NRF_GZLL_CONST_FIFO_LENGTH : Z;
  radio_activity : engine -> list gzll_event * engine
}.

(** ** Link state ([gz_state]) *)

Record gz_state_t : Type := {
  initialized : bool;
  mode : gz_mode_t;
  rx_buffer : list Byte.byte;
  rx_length : Z;
  rx_ready : bool;
  tx_success : bool;
  tx_failed : bool
}.

(** [gz_state = {0}]. *)
Definition gz_state_zero : gz_state_t :=
  {| initialized := false; mode := 0;
     rx_buffer := replicate (Z.to_nat MAX_PAYLOAD_LENGTH) Byte.x00;
     rx_length := 0; rx_ready := false;
     tx_success := false; tx_failed := false |}.

Definition set_initialized (b : bool) (s : gz_state_t) : gz_state_t :=
  {| initialized := b; mode := mode s; rx_buffer := rx_buffer s;
     rx_length := rx_length s; rx_ready := rx_ready s;
     tx_success := tx_success s; tx_failed := tx_failed s |}.

Definition set_mode (m : gz_mode_t) (s : gz_state_t) : gz_state_t :=
  {| initialized := initialized s; mode := m; rx_buffer := rx_buffer s;
     rx_length := rx_length s; rx_ready := rx_ready s;
     tx_success := tx_success s; tx_failed := tx_failed s |}.

Definition set_rx_buffer (b : list Byte.byte) (s : gz_state_t) : gz_state_t :=
  {| initialized := initialized s; mode := mode s; rx_buffer := b;
     rx_length := rx_length s; rx_ready := rx_ready s;
     tx_success := tx_success s; tx_failed := tx_failed s |}.

Definition set_rx_length (n : Z) (s : gz_state_t) : gz_state_t :=
  {| initialized := initialized s; mode := mode s; rx_buffer := rx_buffer s;
     rx_length := n; rx_ready := rx_ready s;
     tx_success := tx_success s; tx_failed := tx_failed s |}.

Definition set_rx_ready (b : bool) (s : gz_state_t) : gz_state_t :=
  {| initialized := initialized s; mode := mode s; rx_buffer := rx_buffer s;
     rx_length := rx_length s; rx_ready := b;
     tx_success := tx_success s; tx_failed := tx_failed s |}.

Definition set_tx_success (b : bool) (s : gz_state_t) : gz_state_t :=
  {| initialized := initialized s; mode := mode s; rx_buffer := rx_buffer s;
     rx_length := rx_length s; rx_ready := rx_ready s;
     tx_success := b; tx_failed := tx_failed s |}.

Definition set_tx_failed (b : bool) (s : gz_state_t) : gz_state_t :=
  {| initialized := initialized s; mode := mode s; rx_buffer := rx_buffer s;
     rx_length := rx_length s; rx_ready := rx_ready s;
     tx_success := tx_success s; tx_failed := b |}.

(** The three flags cleared together by [gz_init], [gz_flush] and
    [gz_deinit]: [rx_ready], [tx_success], [tx_failed], in that order. *)
Definition clear_flags (s : gz_state_t) : gz_state_t :=
  set_tx_failed false (set_tx_success false (set_rx_ready false s)).

Section Shim.

Context {engine : Type} `{GazellEngine engine}.

(** The shim's world: its own state and the engine underneath. *)
Definition world : Type := gz_state_t * engine.

(** ** Callbacks (interrupt context) *)

Definition nrf_gzll_device_tx_success (pipe : Z) (w : world) : world :=
  (set_tx_success true (fst w), snd w).

Definition nrf_gzll_device_tx_failed (pipe : Z) (w : world) : world :=
  (set_tx_failed true (fst w), snd w).

Definition nrf_gzll_host_rx_data_ready (pipe : Z) (w : world) : world :=
  let s := set_rx_length MAX_PAYLOAD_LENGTH (fst w) in
  let '(ok, buf, len, e) :=
    nrf_gzll_fetch_packet_from_rx_fifo pipe (rx_buffer s) (rx_length s) (snd w) in
  let s := set_rx_length len (set_rx_buffer buf s) in
  if ok then (set_rx_ready true s, e) else (s, e).

Definition nrf_gzll_disabled (w : world) : world := w.

Definition dispatch (w : world) (ev : gzll_event) : world :=
  match ev with
  | EvDeviceTxSuccess pipe => nrf_gzll_device_tx_success pipe w
  | EvDeviceTxFailed pipe => nrf_gzll_device_tx_failed pipe w
  | EvHostRxDataReady pipe => nrf_gzll_host_rx_data_ready pipe w
  | EvDisabled => nrf_gzll_disabled w
  end.

(** A preemption point of a polling loop: the engine makes its progress
    and the callbacks of the events it raised run, in order.  The
    straight-line parts of the operations run without preemption. *)
Definition preempt (w : world) : world :=
  let '(evs, e) := radio_activity (snd w) in
  fold_left dispatch evs (fst w, e).

(** ** [gz_init] *)

(** The [switch] on [config->data_rate]. *)
Definition datarate_of (r : Z) : option nrf_gzll_datarate_t :=
  if r =? 0 then Some NRF_GZLL_DATARATE_250KBIT
  else if r =? 1 then Some NRF_GZLL_DATARATE_1MBIT
  else if r =? 2 then Some NRF_GZLL_DATARATE_2MBIT
  else None.

(** [uint32_t base_addr]: the four bytes packed little-endian. *)
Definition base_addr_of (a : list Z) : Z :=
  (Z.lor (Z.lor (Z.lor (Z.shiftl (nth 3 a 0) 24) (Z.shiftl (nth 2 a 0) 16))
                (Z.shiftl (nth 1 a 0) 8))
         (nth 0 a 0)) mod 2 ^ 32.

(** [uint32_t timeslot = ack_timeout_us / 500; if (timeslot < 1) timeslot = 1;],
    with the truncating division of C. *)
Definition timeslot_of (ack_timeout : Z) : Z :=
  let timeslot := Z.quot ack_timeout 500 in
  if timeslot <? 1 then 1 else timeslot.

Definition gz_init (config : option gz_config_t) (w : world)
  : gz_error_t * world :=
  match config with
  | None => (GZ_ERR_INVALID_CONFIG, w)
  | Some c =>
    if channel c >? 100 then (GZ_ERR_INVALID_CONFIG, w)
    else if data_rate c >? 2 then (GZ_ERR_INVALID_CONFIG, w)
    else if max_retries c >? 15 then (GZ_ERR_INVALID_CONFIG, w)
    else if (ack_timeout_us c <? 250) || (ack_timeout_us c >? 4000)
    then (GZ_ERR_INVALID_CONFIG, w)
    else
      let s := clear_flags (set_initialized false (fst w)) in
      let '(ok, e) := nrf_gzll_init NRF_GZLL_MODE_DEVICE (snd w) in
      if negb ok then (GZ_ERR_HARDWARE, (s, e))
      else
        let e := nrf_gzll_set_base_address_0 (base_addr_of (base_address c)) e in
        let e := nrf_gzll_set_address_prefix_byte 0 (address_prefix c) e in
        let e := nrf_gzll_set_tx_power (tx_power c) e in
        match datarate_of (data_rate c) with
        | None => (GZ_ERR_INVALID_CONFIG, (s, e))
        | Some rate =>
          let e := nrf_gzll_set_datarate rate e in
          let e := nrf_gzll_set_channel_table [channel c] 1 e in
          let e := nrf_gzll_set_channel_table_size 1 e in
          let e := nrf_gzll_set_max_tx_attempts (max_retries c) e in
          let e := nrf_gzll_set_timeslot_period (timeslot_of (ack_timeout_us c)) e in
          (GZ_OK, (set_initialized true s, e))
        end
  end.

(** ** [gz_set_mode] *)

(** [while (nrf_gzll_is_enabled()) { }], at most [fuel] polls; [None]
    when the engine still reports enabled after that many. *)
Fixpoint wait_disabled (fuel : nat) (w : world) : option world :=
  match fuel with
  | O => None
  | S fuel' =>
    let w := preempt w in
    if nrf_gzll_is_enabled (snd w) then wait_disabled fuel' w else Some w
  end.

(** Re-initialise in the chosen engine role, enable, record the role. *)
Definition restart_as (nrf_mode : nrf_gzll_mode_t) (m : gz_mode_t) (w : world)
  : gz_error_t * world :=
  let '(ok, e) := nrf_gzll_init nrf_mode (snd w) in
  if negb ok then (GZ_ERR_HARDWARE, (fst w, e))
  else
    let '(ok, e) := nrf_gzll_enable e in
    if negb ok then (GZ_ERR_HARDWARE, (fst w, e))
    else (GZ_OK, (set_mode m (fst w), e)).

Definition gz_set_mode (fuel : nat) (m : gz_mode_t) (w : world)
  : option (gz_error_t * world) :=
  if negb (initialized (fst w)) then Some (GZ_ERR_NOT_INITIALIZED, w)
  else
    match wait_disabled fuel (fst w, nrf_gzll_disable (snd w)) with
    | None => None
    | Some w =>
      if m =? GZ_MODE_DEVICE then Some (restart_as NRF_GZLL_MODE_DEVICE m w)
      else if m =? GZ_MODE_HOST then Some (restart_as NRF_GZLL_MODE_HOST m w)
      else Some (GZ_ERR_INVALID_CONFIG, w)
    end.

(** ** [gz_send] *)

(** [while (timeout-- > 0) { ... }] with [n] iterations left.  Each of the
    two [volatile] reads is a preemption point. *)
Fixpoint tx_wait (n : nat) (w : world) : gz_error_t * world :=
  match n with
  | O => (GZ_ERR_SEND_FAILED, w)
  | S n' =>
    let w := preempt w in
    if tx_success (fst w) then (GZ_OK, w)
    else
      let w := preempt w in
      if tx_failed (fst w) then (GZ_ERR_SEND_FAILED, w)
      else tx_wait n' w
  end.

(** [data] is [None] for a null pointer. *)
Definition gz_send (data : option (list Byte.byte)) (len : Z) (w : world)
  : gz_error_t * world :=
  if negb (initialized (fst w)) then (GZ_ERR_NOT_INITIALIZED, w)
  else
    match data with
    | None => (GZ_ERR_INVALID_CONFIG, w)
    | Some bytes =>
      if (len =? 0) || (len >? MAX_PAYLOAD_LENGTH)
      then (GZ_ERR_FRAME_TOO_LARGE, w)
      else if negb (mode (fst w) =? GZ_MODE_DEVICE)
      then (GZ_ERR_INVALID_CONFIG, w)
      else
        let s := set_tx_failed false (set_tx_success false (fst w)) in
        let '(ok, e) := nrf_gzll_add_packet_to_tx_fifo 0 bytes len (snd w) in
        if negb ok then (GZ_ERR_BUSY, (s, e))
        else tx_wait (Z.to_nat TX_TIMEOUT) (s, e)
    end.

(** ** [gz_recv] *)

(** [for (i = 0; i < rx_length; i++) out_buf[i] = rx_buffer[i];] with [k]
    iterations left.  An index outside either array is undefined
    behaviour in C: [None]. *)
Fixpoint copy_out (k i : nat) (src dst : list Byte.byte)
  : option (list Byte.byte) :=
  match k with
  | O => Some dst
  | S k' =>
    match src !! i with
    | None => None
    | Some b =>
      if decide (i < length dst)%nat
      then copy_out k' (S i) src (<[i:=b]> dst)
      else None
    end
  end.

(** What a call of [gz_recv] leaves behind: the returned code, the
    caller's buffer, the caller's length cell, the world. *)
Record recv_result : Type := {
  rr_code : gz_error_t;
  rr_buf : option (list Byte.byte);
  rr_len : option Z;
  rr_world : world
}.

(** [out_buf] and [out_len] are [None] for null pointers, otherwise the
    current content of the caller's memory. *)
Definition gz_recv (out_buf : option (list Byte.byte)) (out_len : option Z)
    (max_len : Z) (w : world) : option recv_result :=
  let ret c l := Some {| rr_code := c; rr_buf := out_buf; rr_len := l; rr_world := w |} in
  if negb (initialized (fst w)) then ret GZ_ERR_NOT_INITIALIZED out_len
  else
    match out_buf, out_len with
    | Some buf, Some _ =>
      if negb (mode (fst w) =? GZ_MODE_HOST) then ret GZ_ERR_INVALID_CONFIG out_len
      else if negb (rx_ready (fst w)) then ret GZ_OK (Some 0)
      else if rx_length (fst w) >? max_len then ret GZ_ERR_FRAME_TOO_LARGE out_len
      else
        match copy_out (Z.to_nat (rx_length (fst w))) 0 (rx_buffer (fst w)) buf with
        | None => None
        | Some buf' =>
          Some {| rr_code := GZ_OK; rr_buf := Some buf';
                  rr_len := Some (rx_length (fst w));
                  rr_world := (set_rx_ready false (fst w), snd w) |}
        end
    | _, _ => ret GZ_ERR_INVALID_CONFIG out_len
    end.

(** ** [gz_is_ready], [gz_flush], [gz_deinit] *)

Definition gz_is_ready (w : world) : bool :=
  if negb (initialized (fst w)) then false
  else nrf_gzll_get_tx_fifo_packet_count 0 (snd w) <? NRF_GZLL_CONST_FIFO_LENGTH.

Definition gz_flush (w : world) : gz_error_t * world :=
  if negb (initialized (fst w)) then (GZ_ERR_NOT_INITIALIZED, w)
  else
    let e := nrf_gzll_flush_tx_fifo 0 (snd w) in
    let e := if mode (fst w) =? GZ_MODE_HOST then nrf_gzll_flush_rx_fifo 0 e else e in
    (GZ_OK, (clear_flags (fst w), e)).

Definition gz_deinit (fuel : nat) (w : world) : option world :=
  if initialized (fst w) then
    match wait_disabled fuel (fst w, nrf_gzll_disable (snd w)) with
    | None => None
    | Some w => Some (clear_flags (set_initialized false (fst w)), snd w)
    end
  else Some w.

(** ** The operation surface, for statements about "any operation" *)

Inductive gz_call : Type :=
  | CallSetMode (m : gz_mode_t)
  | CallSend (data : option (list Byte.byte)) (len : Z)
  | CallRecv (out_buf : option (list Byte.byte)) (out_len : option Z) (max_len : Z)
  | CallIsReady
  | CallFlush
  | CallDeinit.

(** What a call hands back, by C return type: [gz_error_t], [bool], [void]. *)
Inductive gz_return : Type :=
  | RetCode (c : gz_error_t)
  | RetBool (b : bool)
  | RetVoid.

Definition invoke (fuel : nat) (c : gz_call) (w : world)
  : option (gz_return * world) :=
  match c with
  | CallSetMode m =>
    match gz_set_mode fuel m w with
    | Some (r, w') => Some (RetCode r, w')
    | None => None
    end
  | CallSend data len =>
    let '(r, w') := gz_send data len w in Some (RetCode r, w')
  | CallRecv out_buf out_len max_len =>
    match gz_recv out_buf out_len max_len w with
    | Some r => Some (RetCode (rr_code r), rr_world r)
    | None => None
    end
  | CallIsReady => Some (RetBool (gz_is_ready w), w)
  | CallFlush => let '(r, w') := gz_flush w in Some (RetCode r, w')
  | CallDeinit =>
    match gz_deinit fuel w with
    | Some w' => Some (RetVoid, w')
    | None => None
    end
  end.

(** The integer a C caller sees in the returned value, when there is one. *)
Definition return_value (r : gz_return) : option Z :=
  match r with
  | RetCode c => Some (gz_error_code c)
  | RetBool b => Some (Z.b2z b)
  | RetVoid => None
  end.

End Shim.

Arguments world engine : clear implicits.

(** ** A scripted engine

    An engine whose answers are fixed in advance and which records what it
    was told: enough to run the shim on concrete inputs. *)

Module Mock.

Inductive told : Type :=
  | TInit (m : nrf_gzll_mode_t)
  | TEnable
  | TDisable
  | TBaseAddress (a : Z)
  | TPrefix (pipe p : Z)
  | TTxPower (p : Z)
  | TDatarate (r : nrf_gzll_datarate_t)
  | TChannelTable (t : list Z) (n : Z)
  | TChannelTableSize (n : Z)
  | TMaxTxAttempts (n : Z)
  | TTimeslotPeriod (n : Z)
  | TAddPacket (pipe : Z) (data : list Byte.byte) (len : Z)
  | TFetch (pipe : Z)
  | TFlushTx (pipe : Z)
  | TFlushRx (pipe : Z).

Record t : Type := {
  enabled : bool;
  stopping : bool;                       (* disable asked, not yet effective *)
  init_ok : bool;                        (* answer of nrf_gzll_init *)
  enable_ok : bool;                      (* answer of nrf_gzll_enable *)
  tx_fifo : list (list Byte.byte);
  rx_fifo : list (list Byte.byte);
  script : list (list gzll_event);       (* events of the coming preemption points *)
  log : list told                        (* primitives called, oldest first *)
}.

Definition fifo_length : Z := 3.

Definition note (c : told) (m : t) : t :=
  {| enabled := enabled m; stopping := stopping m; init_ok := init_ok m;
     enable_ok := enable_ok m; tx_fifo := tx_fifo m; rx_fifo := rx_fifo m;
     script := script m; log := log m ++ [c] |}.

Definition with_enabled (en st : bool) (m : t) : t :=
  {| enabled := en; stopping := st; init_ok := init_ok m;
     enable_ok := enable_ok m; tx_fifo := tx_fifo m; rx_fifo := rx_fifo m;
     script := script m; log := log m |}.

Definition with_fifos (tx rx : list (list Byte.byte)) (m : t) : t :=
  {| enabled := enabled m; stopping := stopping m; init_ok := init_ok m;
     enable_ok := enable_ok m; tx_fifo := tx; rx_fifo := rx;
     script := script m; log := log m |}.

Definition with_script (sc : list (list gzll_event)) (m : t) : t :=
  {| enabled := enabled m; stopping := stopping m; init_ok := init_ok m;
     enable_ok := enable_ok m; tx_fifo := tx_fifo m; rx_fifo := rx_fifo m;
     script := sc; log := log m |}.

Definition add_packet (pipe : Z) (data : list Byte.byte) (len : Z) (m : t)
  : bool * t :=
  let m := note (TAddPacket pipe data len) m in
  if Z.of_nat (length (tx_fifo m)) <? fifo_length
  then (true, with_fifos (tx_fifo m ++ [take (Z.to_nat len) data]) (rx_fifo m) m)
  else (false, m).

Definition fetch (pipe : Z) (buf : list Byte.byte) (len : Z) (m : t)
  : (bool * list Byte.byte * Z) * t :=
  let m := note (TFetch pipe) m in
  match rx_fifo m with
  | [] => ((false, buf, 0), m)
  | p :: rest =>
    ((true, p ++ drop (length p) buf, Z.of_nat (length p)),
     with_fifos (tx_fifo m) rest m)
  end.

Definition activity (m : t) : list gzll_event * t :=
  let m := if stopping m then with_enabled false false m else m in
  match script m with
  | [] => ([], m)
  | evs :: rest => (evs, with_script rest m)
  end.

#[global] Instance engine : GazellEngine t := {|
  nrf_gzll_init md m := (init_ok m, note (TInit md) m);
  nrf_gzll_enable m :=
    (enable_ok m,
     note TEnable (if enable_ok m then with_enabled true false m else m));
  nrf_gzll_disable m := note TDisable (with_enabled (enabled m) (enabled m) m);
  nrf_gzll_is_enabled m := enabled m;
  nrf_gzll_set_base_address_0 a := note (TBaseAddress a);
  nrf_gzll_set_address_prefix_byte pipe p := note (TPrefix pipe p);
  nrf_gzll_set_tx_power p := note (TTxPower p);
  nrf_gzll_set_datarate r := note (TDatarate r);
  nrf_gzll_set_channel_table tb n := note (TChannelTable tb n);
  nrf_gzll_set_channel_table_size n := note (TChannelTableSize n);
  nrf_gzll_set_max_tx_attempts n := note (TMaxTxAttempts n);
  nrf_gzll_set_timeslot_period n := note (TTimeslotPeriod n);
  nrf_gzll_add_packet_to_tx_fifo := add_packet;
  nrf_gzll_fetch_packet_from_rx_fifo := fetch;
  nrf_gzll_get_tx_fifo_packet_count pipe m := Z.of_nat (length (tx_fifo m));
  nrf_gzll_flush_tx_fifo pipe m :=
    note (TFlushTx pipe) (with_fifos [] (rx_fifo m) m);
  nrf_gzll_flush_rx_fifo pipe m :=
    note (TFlushRx pipe) (with_fifos (tx_fifo m) [] m);
  NRF_GZLL_CONST_FIFO_LENGTH := fifo_length;
  radio_activity := activity
|}.

(** A freshly powered engine: idle, every lifecycle call succeeds. *)
Definition idle : t :=
  {| enabled := false; stopping := false; init_ok := true; enable_ok := true;
     tx_fifo := []; rx_fifo := []; script := []; log := [] |}.

(** The same engine, running. *)
Definition running : t := with_enabled true false idle.

(** An engine whose bring-up fails. *)
Definition broken : t :=
  {| enabled := false; stopping := false; init_ok := false; enable_ok := true;
     tx_fifo := []; rx_fifo := []; script := []; log := [] |}.

End Mock.

(** Sample inputs. *)

Definition sample_config : gz_config_t :=
  {| channel := 4; data_rate := 2; tx_power := 0; max_retries := 3;
     ack_timeout_us := 4000; base_address := [1; 2; 3; 4];
     address_prefix := 0xAB |}.

Definition with_channel (v : Z) (c : gz_config_t) : gz_config_t :=
  {| channel := v; data_rate := data_rate c; tx_power := tx_power c;
     max_retries := max_retries c; ack_timeout_us := ack_timeout_us c;
     base_address := base_address c; address_prefix := address_prefix c |}.

(** A link that went through [gz_init] and [gz_set_mode m]. *)
Definition link_in (m : gz_mode_t) : gz_state_t :=
  set_mode m (set_initialized true gz_state_zero).

Definition sample_packet : list Byte.byte := [Byte.x10; Byte.x20; Byte.x30].

(** A host link holding [sample_packet] not yet consumed. *)
Definition host_with_packet : gz_state_t :=
  set_rx_ready true
    (set_rx_length 3
       (set_rx_buffer (sample_packet ++ replicate 29 Byte.x00)
          (link_in GZ_MODE_HOST))).

(** A caller's buffer of [n] bytes, all [0xff]. *)
Definition caller_buffer (n : nat) : list Byte.byte := replicate n Byte.xff.

(** Engines for a Device link: the ACK arrives before the fifth read;
    the retries run out before the second read; nothing ever happens;
    the outbound queue is full. *)
Definition acking : Mock.t :=
  Mock.with_script [[]; []; []; []; [EvDeviceTxSuccess 0]] Mock.running.

Definition giving_up : Mock.t :=
  Mock.with_script [[]; [EvDeviceTxFailed 0]] Mock.running.

Definition silent : Mock.t := Mock.running.

Definition congested : Mock.t :=
  Mock.with_fifos [sample_packet; sample_packet; sample_packet] [] Mock.running.

(** ** Vocabulary of the statements *)

(** The scalar fields hold values of their C types. *)
Definition config_in_range (c : gz_config_t) : Prop :=
  0 <= channel c < 256 /\ 0 <= data_rate c < 256 /\
  -128 <= tx_power c < 128 /\ 0 <= max_retries c < 256 /\
  0 <= ack_timeout_us c < 65536.

(** A configuration within every validation bound. *)
Definition config_valid (c : gz_config_t) : Prop :=
  0 <= channel c <= 100 /\ 0 <= data_rate c <= 2 /\
  0 <= max_retries c <= 15 /\ 250 <= ack_timeout_us c <= 4000.

(** A configuration argument that breaks a validation bound: a null
    pointer, channel above 100, data rate not 0, 1 or 2, more than 15
    retries, ACK timeout outside 250..4000. *)
Definition violates_a_bound (config : option gz_config_t) : Prop :=
  match config with
  | None => True
  | Some c =>
    channel c > 100 \/ ~ In (data_rate c) [0; 1; 2] \/ max_retries c > 15 \/
    ack_timeout_us c < 250 \/ ack_timeout_us c > 4000
  end.

(** The state [gz_init] leaves once validation has passed and before the
    engine is brought up. *)
Definition reset_state (s : gz_state_t) : gz_state_t :=
  clear_flags (set_initialized false s).

(** The data-model invariant of the receive buffer: 32 bytes, of which
    at most 32 are in use. *)
Definition link_wf (s : gz_state_t) : Prop :=
  length (rx_buffer s) = Z.to_nat MAX_PAYLOAD_LENGTH /\
  0 <= rx_length s <= MAX_PAYLOAD_LENGTH.

Section Observations.

Context {engine : Type} `{GazellEngine engine}.

(** The world at the [k]-th preemption point after [w]. *)
Fixpoint world_after (k : nat) (w : world engine) : world engine :=
  match k with
  | O => w
  | S k' => preempt (world_after k' w)
  end.

(** The completion events raised while [wait_disabled fuel w] polls. *)
Fixpoint events_while_waiting (fuel : nat) (w : world engine) : list gzll_event :=
  match fuel with
  | O => []
  | S fuel' =>
    fst (radio_activity (snd w)) ++
    (if nrf_gzll_is_enabled (snd (preempt w))
     then events_while_waiting fuel' (preempt w)
     else [])
  end.

(** Iteration [i] (from 0) of the wait loop of [gz_send] started in [w]
    reads [tx_success] at preemption point [2i+1] and [tx_failed] at
    preemption point [2i+2]. *)
Definition sees_success (i : nat) (w : world engine) : bool :=
  tx_success (fst (world_after (2 * i + 1) w)).

Definition sees_failure (i : nat) (w : world engine) : bool :=
  tx_failed (fst (world_after (2 * i + 2) w)).

(** Neither flag is seen set in iterations [0 .. k-1]. *)
Definition nothing_seen_before (k : nat) (w : world engine) : Prop :=
  forall i, (i < k)%nat -> sees_success i w = false /\ sees_failure i w = false.

(** The same as a computation that walks the preemption points once. *)
Fixpoint quiet (k : nat) (w : world engine) : bool :=
  match k with
  | O => true
  | S k' =>
    let w1 := preempt w in
    let w2 := preempt w1 in
    negb (tx_success (fst w1)) && negb (tx_failed (fst w2)) && quiet k' w2
  end.

End Observations.

(** What a call other than [gz_init] hands back on a link that is not
    initialised, by return type: the error code, [false], nothing. *)
Definition uninitialized_answer (c : gz_call) : gz_return :=
  match c with
  | CallIsReady => RetBool false
  | CallDeinit => RetVoid
  | _ => RetCode GZ_ERR_NOT_INITIALIZED
  end.

(** The engine role [gz_set_mode] asks for, for a recognised role. *)
Definition nrf_mode_of (m : gz_mode_t) : nrf_gzll_mode_t :=
  if m =? GZ_MODE_DEVICE then NRF_GZLL_MODE_DEVICE else NRF_GZLL_MODE_HOST.

(** ** An engine that takes its time to disable

    The engine is a counter: it reports enabled while the counter is
    positive and counts down by one at every preemption point.  Every
    other primitive succeeds and leaves the counter alone. *)

Module Countdown.

#[global] Instance engine : GazellEngine nat := {|
  nrf_gzll_init md n := (true, n);
  nrf_gzll_enable n := (true, n);
  nrf_gzll_disable n := n;
  nrf_gzll_is_enabled n := (0 <? n)%nat;
  nrf_gzll_set_base_address_0 a n := n;
  nrf_gzll_set_address_prefix_byte pipe p n := n;
  nrf_gzll_set_tx_power p n := n;
  nrf_gzll_set_datarate r n := n;
  nrf_gzll_set_channel_table tb k n := n;
  nrf_gzll_set_channel_table_size k n := n;
  nrf_gzll_set_max_tx_attempts k n := n;
  nrf_gzll_set_timeslot_period k n := n;
  nrf_gzll_add_packet_to_tx_fifo pipe data len n := (true, n);
  nrf_gzll_fetch_packet_from_rx_fifo pipe buf len n := ((false, buf, len), n);
  nrf_gzll_get_tx_fifo_packet_count pipe n := 0;
  nrf_gzll_flush_tx_fifo pipe n := n;
  nrf_gzll_flush_rx_fifo pipe n := n;
  NRF_GZLL_CONST_FIFO_LENGTH := 3;
  radio_activity n := ([], Nat.pred n)
|}.

End Countdown.

(** More sample inputs. *)

Definition other_packet : list Byte.byte := [Byte.x41; Byte.x42].

(** A running engine with two packets waiting in its inbound queue. *)
Definition delivering : Mock.t :=
  Mock.with_fifos [] [sample_packet; other_packet] Mock.running.

(** A running engine whose bring-up will fail. *)
Definition failing_restart : Mock.t :=
  {| Mock.enabled := true; Mock.stopping := false; Mock.init_ok := false;
     Mock.enable_ok := true; Mock.tx_fifo := []; Mock.rx_fifo := [];
     Mock.script := []; Mock.log := [] |}.

Section Properties.

Context {engine : Type} `{GazellEngine engine}.

Implicit Types (w : world engine) (s : gz_state_t) (e : engine).

(** *** Initialisation *)

Lemma datarate_of_valid r :
  0 <= r <= 2 -> exists rate, datarate_of r = Some rate.
Proof.
  intros Hr. unfold datarate_of.
  destruct (Z.eqb_spec r 0); [eauto|].
  destruct (Z.eqb_spec r 1); [eauto|].
  destruct (Z.eqb_spec r 2); [eauto|lia].
Qed.

Lemma timeslot_of_max a : timeslot_of a = Z.max 1 (Z.quot a 500).
Proof. unfold timeslot_of. destruct (Z.ltb_spec (Z.quot a 500) 1); lia. Qed.

(** C4. A configuration argument that breaks one of the validation bounds
    (null pointer, channel > 100, data rate not in {0,1,2}, retries > 15,
    ACK timeout outside [250,4000]) makes [gz_init] return
    [GZ_ERR_INVALID_CONFIG] and leaves the link state and the engine
    exactly as they were: [initialized] is not set, no field is written. *)
Theorem init_rejects_invalid_config (config : option gz_config_t) w :
  (forall c, config = Some c -> config_in_range c) ->
  violates_a_bound config ->
  gz_init config w = (GZ_ERR_INVALID_CONFIG, w).
Proof.
  intros Hrange Hbad. destruct config as [c|]; [|reflexivity].
  destruct (Hrange c eq_refl) as (_ & Hrate & _).
  simpl in Hbad. unfold gz_init.
  destruct (Z.gtb_spec (channel c) 100); [reflexivity|].
  destruct (Z.gtb_spec (data_rate c) 2); [reflexivity|].
  destruct (Z.gtb_spec (max_retries c) 15); [reflexivity|].
  destruct (Z.ltb_spec (ack_timeout_us c) 250); [reflexivity|].
  destruct (Z.gtb_spec (ack_timeout_us c) 4000); [reflexivity|].
  exfalso. destruct Hbad as [Hb|[Hb|[Hb|[Hb|Hb]]]]; lia.
Qed.

(** C7. When the configuration passes validation but the engine bring-up
    fails, [gz_init] returns [GZ_ERR_HARDWARE] with the link state already
    reset: [initialized], [rx_ready], [tx_success] and [tx_failed] are all
    false on return, whatever they were before the call. *)
Theorem init_hardware_failure_resets (c : gz_config_t) s e e' :
  config_valid c ->
  nrf_gzll_init NRF_GZLL_MODE_DEVICE e = (false, e') ->
  gz_init (Some c) (s, e) = (GZ_ERR_HARDWARE, (reset_state s, e')) /\
  initialized (reset_state s) = false /\
  rx_ready (reset_state s) = false /\
  tx_success (reset_state s) = false /\
  tx_failed (reset_state s) = false.
Proof.
  intros (Hch & Hrate & Hret & Hack) Hinit.
  split; [|repeat split; reflexivity].
  unfold gz_init.
  destruct (Z.gtb_spec (channel c) 100); [lia|].
  destruct (Z.gtb_spec (data_rate c) 2); [lia|].
  destruct (Z.gtb_spec (max_retries c) 15); [lia|].
  destruct (Z.ltb_spec (ack_timeout_us c) 250); [lia|].
  destruct (Z.gtb_spec (ack_timeout_us c) 4000); [lia|].
  simpl. rewrite Hinit. reflexivity.
Qed.

(** C10. For a valid configuration on an engine that comes up, [gz_init]
    succeeds and the last thing it programs is the timeslot period
    [max 1 (ack_timeout_us / 500)], with truncating division ([Z.quot]); so a
    timeout of 250..499 gives 1, 500..999 gives 1, 1000..1499 gives 2 and
    4000 gives 8. *)
Theorem init_programs_timeslot_period (c : gz_config_t) s e e1 :
  config_valid c ->
  nrf_gzll_init NRF_GZLL_MODE_DEVICE e = (true, e1) ->
  (exists rate,
     datarate_of (data_rate c) = Some rate /\
     gz_init (Some c) (s, e) =
       (GZ_OK,
        (set_initialized true (reset_state s),
         nrf_gzll_set_timeslot_period (Z.max 1 (Z.quot (ack_timeout_us c) 500))
           (nrf_gzll_set_max_tx_attempts (max_retries c)
              (nrf_gzll_set_channel_table_size 1
                 (nrf_gzll_set_channel_table [channel c] 1
                    (nrf_gzll_set_datarate rate
                       (nrf_gzll_set_tx_power (tx_power c)
                          (nrf_gzll_set_address_prefix_byte 0 (address_prefix c)
                             (nrf_gzll_set_base_address_0
                                (base_addr_of (base_address c)) e1)))))))))) /\
  (forall a, 250 <= a <= 499 -> timeslot_of a = 1) /\
  (forall a, 500 <= a <= 999 -> timeslot_of a = 1) /\
  (forall a, 1000 <= a <= 1499 -> timeslot_of a = 2) /\
  timeslot_of 4000 = 8.
Proof.
  intros (Hch & Hrate & Hret & Hack) Hinit.
  split.
  - destruct (datarate_of_valid _ Hrate) as [rate Hr].
    exists rate. split; [exact Hr|].
    unfold gz_init.
    destruct (Z.gtb_spec (channel c) 100); [lia|].
    destruct (Z.gtb_spec (data_rate c) 2); [lia|].
    destruct (Z.gtb_spec (max_retries c) 15); [lia|].
    destruct (Z.ltb_spec (ack_timeout_us c) 250); [lia|].
    destruct (Z.gtb_spec (ack_timeout_us c) 4000); [lia|].
    simpl. rewrite Hinit. simpl. rewrite Hr, timeslot_of_max. reflexivity.
  - repeat split; intros a Ha; rewrite timeslot_of_max;
      rewrite Z.quot_div_nonneg by lia.
    + assert (a / 500 = 0) by (apply Z.div_small; lia). lia.
    + assert (a / 500 = 1) by (symmetry; apply (Z.div_unique a 500 1 (a - 500)); lia). lia.
    + assert (a / 500 = 2) by (symmetry; apply (Z.div_unique a 500 2 (a - 1000)); lia). lia.
Qed.

(** *** Callbacks and preemption *)

Lemma dispatch_keeps_lifecycle w ev :
  initialized (fst (dispatch w ev)) = initialized (fst w) /\
  mode (fst (dispatch w ev)) = mode (fst w).
Proof.
  destruct ev as [pipe|pipe|pipe|]; simpl; auto.
  unfold nrf_gzll_host_rx_data_ready.
  destruct (nrf_gzll_fetch_packet_from_rx_fifo _ _ _ _) as [[[ok buf] len] e'].
  destruct ok; simpl; auto.
Qed.

Lemma preempt_keeps_lifecycle w :
  initialized (fst (preempt w)) = initialized (fst w) /\
  mode (fst (preempt w)) = mode (fst w).
Proof.
  unfold preempt. destruct (radio_activity (snd w)) as [evs e'].
  change (initialized (fst w)) with (initialized (fst (fst w, e'))).
  change (mode (fst w)) with (mode (fst (fst w, e'))).
  generalize (fst w, e'). induction evs as [|ev evs IH]; intros w0; simpl; [auto|].
  destruct (IH (dispatch w0 ev)) as [-> ->]. apply dispatch_keeps_lifecycle.
Qed.

Lemma wait_disabled_keeps_lifecycle fuel : forall w w',
  wait_disabled fuel w = Some w' ->
  initialized (fst w') = initialized (fst w) /\
  mode (fst w') = mode (fst w) /\
  nrf_gzll_is_enabled (snd w') = false.
Proof.
  induction fuel as [|fuel IH]; intros w w' Hw; simpl in Hw; [discriminate|].
  destruct (preempt_keeps_lifecycle w) as [Hi Hm].
  destruct (nrf_gzll_is_enabled (snd (preempt w))) eqn:Hen.
  - destruct (IH _ _ Hw) as (-> & -> & ->). auto.
  - injection Hw as <-. auto.
Qed.

Lemma preempt_quiet w :
  fst (radio_activity (snd w)) = [] -> fst (preempt w) = fst w.
Proof.
  intros Hq. unfold preempt.
  destruct (radio_activity (snd w)) as [evs e']. simpl in Hq. subst evs.
  reflexivity.
Qed.

Lemma wait_disabled_quiet fuel : forall w w',
  wait_disabled fuel w = Some w' ->
  events_while_waiting fuel w = [] -> fst w' = fst w.
Proof.
  induction fuel as [|fuel IH]; intros w w' Hw Hq; simpl in Hw, Hq;
    [discriminate|].
  apply app_eq_nil in Hq as [Hnow Hlater].
  destruct (nrf_gzll_is_enabled (snd (preempt w))).
  - rewrite (IH _ _ Hw Hlater). apply preempt_quiet, Hnow.
  - injection Hw as <-. apply preempt_quiet, Hnow.
Qed.

Lemma wait_disabled_more_fuel n : forall fuel w w',
  wait_disabled n w = Some w' -> (n <= fuel)%nat ->
  wait_disabled fuel w = Some w'.
Proof.
  induction n as [|n IH]; intros fuel w w' Hw Hle; simpl in Hw; [discriminate|].
  destruct fuel as [|fuel]; [lia|]. simpl.
  destruct (nrf_gzll_is_enabled (snd (preempt w))); [|exact Hw].
  apply IH; [exact Hw|lia].
Qed.

(** *** Mode selection *)

(** C1 (as the code has it). On an initialised link, [gz_set_mode] with a
    role that is neither Device nor Host returns [GZ_ERR_INVALID_CONFIG]
    once the engine reports disabled.  The role is examined after the
    engine has been told to disable and the wait for it is over: the
    returned world is the one the wait ended in, with the engine
    disabled, not re-initialised and not enabled.  [gz_set_mode] itself
    writes no field of the link state: [initialized] and the role are as
    before, and the whole link state is when no completion event fires
    during the wait. *)
Theorem set_mode_unrecognized_role (n fuel : nat) (m : gz_mode_t) s e w' :
  initialized s = true ->
  m <> GZ_MODE_DEVICE -> m <> GZ_MODE_HOST ->
  wait_disabled n (s, nrf_gzll_disable e) = Some w' ->
  (n <= fuel)%nat ->
  gz_set_mode fuel m (s, e) = Some (GZ_ERR_INVALID_CONFIG, w') /\
  initialized (fst w') = true /\
  mode (fst w') = mode s /\
  nrf_gzll_is_enabled (snd w') = false /\
  (events_while_waiting n (s, nrf_gzll_disable e) = [] -> fst w' = s).
Proof.
  intros Hinit Hd Hh Hwait Hle.
  destruct (wait_disabled_keeps_lifecycle _ _ _ Hwait) as (Hi & Hm & Hen).
  simpl in Hi, Hm. rewrite Hi, Hm, Hen.
  split; [|repeat split; auto;
           intros Hq; exact (wait_disabled_quiet _ _ _ Hwait Hq)].
  unfold gz_set_mode. simpl. rewrite Hinit. simpl.
  rewrite (wait_disabled_more_fuel _ _ _ _ Hwait Hle).
  destruct (Z.eqb_spec m GZ_MODE_DEVICE); [contradiction|].
  destruct (Z.eqb_spec m GZ_MODE_HOST); [contradiction|].
  reflexivity.
Qed.

(** *** Send: preconditions *)

(** C6. [gz_send] examines its preconditions in this order, each with its
    own failure, and changes nothing when one fails: link not initialised
    gives [GZ_ERR_NOT_INITIALIZED]; else a null data pointer gives
    [GZ_ERR_INVALID_CONFIG]; else a length of 0 or above 32 gives
    [GZ_ERR_FRAME_TOO_LARGE]; else a role other than Device gives
    [GZ_ERR_INVALID_CONFIG]. *)
Theorem send_preconditions_in_order (data : option (list Byte.byte)) (len : Z) w :
  (initialized (fst w) = false ->
   gz_send data len w = (GZ_ERR_NOT_INITIALIZED, w)) /\
  (initialized (fst w) = true -> data = None ->
   gz_send data len w = (GZ_ERR_INVALID_CONFIG, w)) /\
  (initialized (fst w) = true -> data <> None ->
   len = 0 \/ len > MAX_PAYLOAD_LENGTH ->
   gz_send data len w = (GZ_ERR_FRAME_TOO_LARGE, w)) /\
  (initialized (fst w) = true -> data <> None ->
   1 <= len <= MAX_PAYLOAD_LENGTH -> mode (fst w) <> GZ_MODE_DEVICE ->
   gz_send data len w = (GZ_ERR_INVALID_CONFIG, w)).
Proof.
  unfold gz_send, MAX_PAYLOAD_LENGTH. repeat split.
  - intros ->. reflexivity.
  - intros -> ->. reflexivity.
  - intros -> Hdata Hlen. destruct data as [bytes|]; [|contradiction].
    cbv [negb].
    destruct (Z.eqb_spec len 0); [reflexivity|].
    destruct (Z.gtb_spec len 32); [reflexivity|lia].
  - intros -> Hdata Hlen Hmode. destruct data as [bytes|]; [|contradiction].
    cbv [negb].
    destruct (Z.eqb_spec len 0); [lia|].
    destruct (Z.gtb_spec len 32); [lia|]. cbv [orb].
    destruct (Z.eqb_spec (mode (fst w)) GZ_MODE_DEVICE); [contradiction|].
    reflexivity.
Qed.

(** *** Flush *)

(** C9. On an initialised link [gz_flush] returns [GZ_OK]; it flushes the
    engine's outbound queue of pipe 0, and the inbound queue as well
    exactly when the role is Host; it clears [rx_ready], [tx_success] and
    [tx_failed]; [initialized] and the role stay as they were. *)
Theorem flush_effect s e :
  initialized s = true ->
  (exists s',
     gz_flush (s, e) =
       (GZ_OK,
        (s', if mode s =? GZ_MODE_HOST
             then nrf_gzll_flush_rx_fifo 0 (nrf_gzll_flush_tx_fifo 0 e)
             else nrf_gzll_flush_tx_fifo 0 e)) /\
     rx_ready s' = false /\ tx_success s' = false /\ tx_failed s' = false /\
     initialized s' = initialized s /\ mode s' = mode s /\
     rx_buffer s' = rx_buffer s /\ rx_length s' = rx_length s) /\
  (mode s = GZ_MODE_HOST ->
   snd (snd (gz_flush (s, e))) =
     nrf_gzll_flush_rx_fifo 0 (nrf_gzll_flush_tx_fifo 0 e)) /\
  (mode s <> GZ_MODE_HOST ->
   snd (snd (gz_flush (s, e))) = nrf_gzll_flush_tx_fifo 0 e).
Proof.
  intros Hinit. unfold gz_flush. simpl. rewrite Hinit. simpl.
  split; [exists (clear_flags s); repeat split; exact Hinit|].
  split; intros Hm; destruct (Z.eqb_spec (mode s) GZ_MODE_HOST);
    try contradiction; reflexivity.
Qed.

(** *** Receive *)

Lemma copy_out_spec k : forall i (src dst : list Byte.byte),
  (i + k <= length src)%nat -> (i + k <= length dst)%nat ->
  copy_out k i src dst =
    Some (take i dst ++ take k (drop i src) ++ drop (i + k) dst).
Proof.
  induction k as [|k IH]; intros i src dst Hsrc Hdst; simpl.
  - rewrite Nat.add_0_r, take_drop. reflexivity.
  - destruct (lookup_lt_is_Some_2 src i ltac:(lia)) as [b Hb].
    rewrite Hb. destruct (decide (i < length dst)%nat) as [Hi|Hi]; [|lia].
    rewrite IH by (rewrite ?length_insert; lia).
    f_equal.
    rewrite (take_S_r (<[i:=b]> dst) i b) by (apply list_lookup_insert_eq; lia).
    rewrite take_insert_ge by lia.
    rewrite drop_insert_lt by lia.
    rewrite (drop_S src b i Hb). simpl.
    rewrite <- app_assoc. simpl.
    replace (i + S k)%nat with (S (i + k)) by lia. reflexivity.
Qed.

(** The bytes a successful [gz_recv] leaves in a caller's buffer: the
    buffered packet, then what the buffer held beyond it. *)
Lemma copy_out_packet (src dst : list Byte.byte) (n : Z) :
  0 <= n -> (Z.to_nat n <= length src)%nat -> (Z.to_nat n <= length dst)%nat ->
  copy_out (Z.to_nat n) 0 src dst =
    Some (take (Z.to_nat n) src ++ drop (Z.to_nat n) dst).
Proof.
  intros Hn Hsrc Hdst. rewrite copy_out_spec by lia. reflexivity.
Qed.

Lemma recv_delivers s e (buf : list Byte.byte) (l max_len : Z) :
  initialized s = true -> mode s = GZ_MODE_HOST -> link_wf s ->
  rx_ready s = true -> rx_length s <= max_len ->
  max_len <= Z.of_nat (length buf) ->
  gz_recv (Some buf) (Some l) max_len (s, e) =
    Some {| rr_code := GZ_OK;
            rr_buf := Some (take (Z.to_nat (rx_length s)) (rx_buffer s) ++
                            drop (Z.to_nat (rx_length s)) buf);
            rr_len := Some (rx_length s);
            rr_world := (set_rx_ready false s, e) |}.
Proof.
  intros Hinit Hmode [Hlen Hrange] Hready Hfit Hbuf.
  unfold MAX_PAYLOAD_LENGTH in *.
  unfold gz_recv. simpl. rewrite Hinit, Hmode, Hready. simpl.
  destruct (Z.gtb_spec (rx_length s) max_len); [lia|].
  rewrite copy_out_packet by lia. reflexivity.
Qed.

Lemma recv_nothing_buffered s e (buf : list Byte.byte) (l max_len : Z) :
  initialized s = true -> mode s = GZ_MODE_HOST -> rx_ready s = false ->
  gz_recv (Some buf) (Some l) max_len (s, e) =
    Some {| rr_code := GZ_OK; rr_buf := Some buf; rr_len := Some 0;
            rr_world := (s, e) |}.
Proof.
  intros Hinit Hmode Hready.
  unfold gz_recv. simpl. rewrite Hinit, Hmode, Hready. reflexivity.
Qed.

(** C3. On an initialised Host link holding a packet whose length
    exceeds [max_len], [gz_recv] returns [GZ_ERR_FRAME_TOO_LARGE] and
    writes nothing: the caller's memory and the whole world, so
    [rx_ready], [rx_buffer] and [rx_length], are as before; a following
    [gz_recv] whose [max_len] covers the packet (the receive buffer
    being its 32 bytes with at most 32 in use, and the caller's buffer
    having [max_len] bytes) returns [GZ_OK] with the buffered bytes and
    their length. *)
Theorem recv_too_large_keeps_packet s e (buf : list Byte.byte) (l max_len : Z) :
  initialized s = true -> mode s = GZ_MODE_HOST ->
  rx_ready s = true -> rx_length s > max_len ->
  gz_recv (Some buf) (Some l) max_len (s, e) =
    Some {| rr_code := GZ_ERR_FRAME_TOO_LARGE; rr_buf := Some buf;
            rr_len := Some l; rr_world := (s, e) |} /\
  forall (buf2 : list Byte.byte) (l2 max_len2 : Z),
    link_wf s ->
    rx_length s <= max_len2 -> max_len2 <= Z.of_nat (length buf2) ->
    gz_recv (Some buf2) (Some l2) max_len2 (s, e) =
      Some {| rr_code := GZ_OK;
              rr_buf := Some (take (Z.to_nat (rx_length s)) (rx_buffer s) ++
                              drop (Z.to_nat (rx_length s)) buf2);
              rr_len := Some (rx_length s);
              rr_world := (set_rx_ready false s, e) |}.
Proof.
  intros Hinit Hmode Hready Hbig. split.
  - unfold gz_recv. simpl. rewrite Hinit, Hmode, Hready. simpl.
    destruct (Z.gtb_spec (rx_length s) max_len); [reflexivity|lia].
  - intros buf2 l2 max_len2 Hwf Hfit Hbuf2. apply recv_delivers; assumption.
Qed.

(** C5. On an initialised Host link, with non-null output pointers:
    when [rx_ready] is false, [gz_recv] writes 0 to [*out_len] and
    returns [GZ_OK]; when [rx_ready] is true and the buffered length [N]
    is at most [max_len] (the receive buffer being its 32 bytes with at
    most 32 in use, and the caller's buffer having [max_len] bytes), it
    copies exactly the [N] buffered bytes to the front of the output
    buffer, writes [N] to [*out_len], clears [rx_ready] and returns
    [GZ_OK], and a [gz_recv] right after that returns [GZ_OK] with
    length 0. *)
Theorem recv_behaviour s e (buf : list Byte.byte) (l max_len : Z) :
  initialized s = true -> mode s = GZ_MODE_HOST ->
  (rx_ready s = false ->
   gz_recv (Some buf) (Some l) max_len (s, e) =
     Some {| rr_code := GZ_OK; rr_buf := Some buf; rr_len := Some 0;
             rr_world := (s, e) |}) /\
  (rx_ready s = true -> rx_length s <= max_len ->
   link_wf s -> max_len <= Z.of_nat (length buf) ->
   exists r,
     gz_recv (Some buf) (Some l) max_len (s, e) = Some r /\
     rr_code r = GZ_OK /\
     rr_buf r = Some (take (Z.to_nat (rx_length s)) (rx_buffer s) ++
                      drop (Z.to_nat (rx_length s)) buf) /\
     rr_len r = Some (rx_length s) /\
     rr_world r = (set_rx_ready false s, e) /\
     rx_ready (fst (rr_world r)) = false /\
     forall (buf2 : list Byte.byte) (l2 max_len2 : Z),
       gz_recv (Some buf2) (Some l2) max_len2 (rr_world r) =
         Some {| rr_code := GZ_OK; rr_buf := Some buf2; rr_len := Some 0;
                 rr_world := rr_world r |}).
Proof.
  intros Hinit Hmode. split.
  - intros Hready. apply recv_nothing_buffered; assumption.
  - intros Hready Hfit Hwf Hbuf.
    eexists. split; [apply recv_delivers; assumption|].
    simpl. repeat split.
    intros buf2 l2 max_len2.
    apply recv_nothing_buffered; [exact Hinit|exact Hmode|reflexivity].
Qed.

(** *** Send: outcome *)

Lemma world_after_add a : forall b w,
  world_after (a + b) w = world_after a (world_after b w).
Proof. induction a as [|a IH]; intros b w; simpl; [|rewrite IH]; reflexivity. Qed.

Lemma sees_success_shift i w :
  sees_success i (preempt (preempt w)) = sees_success (S i) w.
Proof.
  unfold sees_success.
  replace (2 * S i + 1)%nat with ((2 * i + 1) + 2)%nat by lia.
  rewrite (world_after_add (2 * i + 1) 2). reflexivity.
Qed.

Lemma sees_failure_shift i w :
  sees_failure i (preempt (preempt w)) = sees_failure (S i) w.
Proof.
  unfold sees_failure.
  replace (2 * S i + 2)%nat with ((2 * i + 2) + 2)%nat by lia.
  rewrite (world_after_add (2 * i + 2) 2). reflexivity.
Qed.

Lemma nothing_seen_shift k w :
  nothing_seen_before (S k) w -> nothing_seen_before k (preempt (preempt w)).
Proof.
  intros Hq i Hi. rewrite sees_success_shift, sees_failure_shift.
  apply Hq. lia.
Qed.

Lemma nothing_seen_first k w :
  nothing_seen_before (S k) w ->
  tx_success (fst (preempt w)) = false /\
  tx_failed (fst (preempt (preempt w))) = false.
Proof. intros Hq. exact (Hq 0%nat ltac:(lia)). Qed.

Lemma world_after_shift j w :
  world_after j (preempt (preempt w)) = world_after (j + 2) w.
Proof. rewrite (world_after_add j 2). reflexivity. Qed.

Lemma quiet_sound k : forall w, quiet k w = true -> nothing_seen_before k w.
Proof.
  induction k as [|k IH]; intros w Hq i Hi; [lia|].
  simpl in Hq. apply andb_prop in Hq as [Hq Hrest].
  apply andb_prop in Hq as [Hs Hf].
  apply negb_true_iff in Hs, Hf.
  destruct i as [|i]; [split; assumption|].
  rewrite <- sees_success_shift, <- sees_failure_shift.
  apply (IH _ Hrest). lia.
Qed.

Lemma tx_wait_success k : forall n w,
  (k < n)%nat -> nothing_seen_before k w -> sees_success k w = true ->
  tx_wait n w = (GZ_OK, world_after (2 * k + 1) w).
Proof.
  induction k as [|k IH]; intros n w Hlt Hq Hs;
    (destruct n as [|n]; [lia|]); simpl tx_wait.
  - unfold sees_success in Hs. simpl in Hs. rewrite Hs. reflexivity.
  - destruct (nothing_seen_first _ _ Hq) as [-> ->].
    rewrite (IH n) by
      (try lia; try (apply nothing_seen_shift; assumption);
       rewrite sees_success_shift; assumption).
    rewrite world_after_shift. do 2 f_equal. lia.
Qed.

Lemma tx_wait_failure k : forall n w,
  (k < n)%nat -> nothing_seen_before k w ->
  sees_success k w = false -> sees_failure k w = true ->
  tx_wait n w = (GZ_ERR_SEND_FAILED, world_after (2 * k + 2) w).
Proof.
  induction k as [|k IH]; intros n w Hlt Hq Hs Hf;
    (destruct n as [|n]; [lia|]); simpl tx_wait.
  - unfold sees_success in Hs. unfold sees_failure in Hf. simpl in Hs, Hf.
    rewrite Hs, Hf. reflexivity.
  - destruct (nothing_seen_first _ _ Hq) as [-> ->].
    rewrite (IH n) by
      (try lia; try (apply nothing_seen_shift; assumption);
       rewrite ?sees_success_shift, ?sees_failure_shift; assumption).
    rewrite world_after_shift. do 2 f_equal. lia.
Qed.

Lemma tx_wait_timeout n : forall w,
  nothing_seen_before n w ->
  tx_wait n w = (GZ_ERR_SEND_FAILED, world_after (2 * n) w).
Proof.
  induction n as [|n IH]; intros w Hq; simpl tx_wait; [reflexivity|].
  destruct (nothing_seen_first _ _ Hq) as [-> ->].
  rewrite IH by (apply nothing_seen_shift; assumption).
  rewrite world_after_shift. do 2 f_equal. lia.
Qed.

(** C2. A [gz_send] on an initialised Device link, with non-null data
    and a length in 1..32, first clears [tx_success] and [tx_failed].
    If the engine's outbound queue rejects the packet the call returns
    [GZ_ERR_BUSY] at once, before any preemption point.  Otherwise it
    polls for at most [TX_TIMEOUT] iterations: it returns [GZ_OK] at the
    first read that sees [tx_success], [GZ_ERR_SEND_FAILED] at the first
    read that sees [tx_failed], and [GZ_ERR_SEND_FAILED] after the last
    iteration when no read saw either flag. *)
Theorem send_outcome (bytes : list Byte.byte) (len : Z) s e :
  initialized s = true -> mode s = GZ_MODE_DEVICE ->
  1 <= len <= MAX_PAYLOAD_LENGTH ->
  let s0 := set_tx_failed false (set_tx_success false s) in
  let budget := Z.to_nat TX_TIMEOUT in
  tx_success s0 = false /\ tx_failed s0 = false /\
  (forall e1,
     nrf_gzll_add_packet_to_tx_fifo 0 bytes len e = (false, e1) ->
     gz_send (Some bytes) len (s, e) = (GZ_ERR_BUSY, (s0, e1))) /\
  (forall e1,
     nrf_gzll_add_packet_to_tx_fifo 0 bytes len e = (true, e1) ->
     (forall k, (k < budget)%nat -> nothing_seen_before k (s0, e1) ->
        sees_success k (s0, e1) = true ->
        gz_send (Some bytes) len (s, e) =
          (GZ_OK, world_after (2 * k + 1) (s0, e1))) /\
     (forall k, (k < budget)%nat -> nothing_seen_before k (s0, e1) ->
        sees_success k (s0, e1) = false -> sees_failure k (s0, e1) = true ->
        gz_send (Some bytes) len (s, e) =
          (GZ_ERR_SEND_FAILED, world_after (2 * k + 2) (s0, e1))) /\
     (nothing_seen_before budget (s0, e1) ->
        gz_send (Some bytes) len (s, e) =
          (GZ_ERR_SEND_FAILED, world_after (2 * budget) (s0, e1)))).
Proof.
  intros Hinit Hmode Hlen s0 budget. unfold MAX_PAYLOAD_LENGTH in Hlen.
  assert (Hsend : gz_send (Some bytes) len (s, e) =
            let '(ok, e1) := nrf_gzll_add_packet_to_tx_fifo 0 bytes len e in
            if negb ok then (GZ_ERR_BUSY, (s0, e1)) else tx_wait budget (s0, e1)).
  { unfold gz_send, MAX_PAYLOAD_LENGTH. cbv [fst snd]. rewrite Hinit, Hmode.
    cbv [negb].
    destruct (Z.eqb_spec len 0); [lia|].
    destruct (Z.gtb_spec len 32); [lia|]. reflexivity. }
  split; [reflexivity|]. split; [reflexivity|].
  split; intros e1 Hadd; rewrite Hsend, Hadd; cbv [negb]; [reflexivity|].
  split; [|split].
  - intros k Hk Hq Hs. apply tx_wait_success; assumption.
  - intros k Hk Hq Hs Hf. apply tx_wait_failure; assumption.
  - intros Hq. apply tx_wait_timeout; assumption.
Qed.

(** *** Calls on a link that is not initialised *)

Lemma deinit_completes (n fuel : nat) w w' :
  initialized (fst w) = true ->
  wait_disabled n (fst w, nrf_gzll_disable (snd w)) = Some w' ->
  (n <= fuel)%nat ->
  gz_deinit fuel w = Some (reset_state (fst w'), snd w').
Proof.
  intros Hinit Hwait Hle. unfold gz_deinit. rewrite Hinit.
  rewrite (wait_disabled_more_fuel _ _ _ _ Hwait Hle). reflexivity.
Qed.

Lemma deinit_leaves_uninitialized (fuel : nat) w w' :
  gz_deinit fuel w = Some w' -> initialized (fst w') = false.
Proof.
  unfold gz_deinit. destruct (initialized (fst w)) eqn:Hinit.
  - destruct (wait_disabled _ _); [|discriminate]. intros [= <-]. reflexivity.
  - intros [= <-]. exact Hinit.
Qed.

Lemma invoke_uninitialized (fuel : nat) (c : gz_call) w :
  initialized (fst w) = false ->
  invoke fuel c w = Some (uninitialized_answer c, w).
Proof.
  intros Hinit. destruct c as [m|data len|out_buf out_len max_len| | |];
    unfold invoke, gz_set_mode, gz_send, gz_recv, gz_is_ready, gz_flush,
      gz_deinit; rewrite Hinit; try reflexivity.
Qed.

(** C8 (as the code has it). On a link that is not initialised, every
    call with a [gz_error_t] result (set-mode, send, recv, flush) returns
    [GZ_ERR_NOT_INITIALIZED]; [gz_is_ready] returns [false]; [gz_deinit]
    returns nothing; none of them changes the link state or touches the
    engine.  A [gz_deinit] on an initialised link returns once the
    engine reports disabled, and the link it leaves answers in the same
    way. *)
Theorem calls_on_uninitialized_link (fuel : nat) (c : gz_call) :
  (forall w, initialized (fst w) = false ->
     invoke fuel c w = Some (uninitialized_answer c, w)) /\
  (forall (n fuel0 : nat) w w',
     initialized (fst w) = true ->
     wait_disabled n (fst w, nrf_gzll_disable (snd w)) = Some w' ->
     (n <= fuel0)%nat ->
     exists w1,
       gz_deinit fuel0 w = Some w1 /\
       initialized (fst w1) = false /\
       invoke fuel c w1 = Some (uninitialized_answer c, w1)).
Proof.
  split.
  - intros w Hinit. apply invoke_uninitialized. exact Hinit.
  - intros n fuel0 w w' Hinit Hwait Hle.
    pose proof (deinit_completes _ _ _ _ Hinit Hwait Hle) as Hd.
    eexists. split; [exact Hd|].
    split; [reflexivity|]. apply invoke_uninitialized. reflexivity.
Qed.

End Properties.

(** ** The operations run on the scripted engine *)

(** C4 at a concrete input: channel 101 on a fresh link. *)
Lemma init_rejects_invalid_config_witness :
  gz_init (Some (with_channel 101 sample_config)) (gz_state_zero, Mock.idle) =
    (GZ_ERR_INVALID_CONFIG, (gz_state_zero, Mock.idle)).
Proof.
  apply init_rejects_invalid_config.
  - intros c [= <-]. unfold config_in_range. simpl. lia.
  - simpl. lia.
Defined.

(** C7 at a concrete input: a Host link in use, re-initialised on an
    engine whose bring-up fails. *)
Lemma init_hardware_failure_resets_witness :
  initialized (set_tx_success true host_with_packet) = true /\
  gz_init (Some sample_config) (set_tx_success true host_with_packet, Mock.broken) =
    (GZ_ERR_HARDWARE,
     (reset_state (set_tx_success true host_with_packet),
      Mock.note (Mock.TInit NRF_GZLL_MODE_DEVICE) Mock.broken)) /\
  initialized (reset_state (set_tx_success true host_with_packet)) = false /\
  rx_ready (reset_state (set_tx_success true host_with_packet)) = false /\
  tx_success (reset_state (set_tx_success true host_with_packet)) = false /\
  tx_failed (reset_state (set_tx_success true host_with_packet)) = false.
Proof.
  split; [reflexivity|].
  apply (init_hardware_failure_resets sample_config).
  - unfold config_valid. simpl. lia.
  - reflexivity.
Defined.

(** C10 at a concrete input: an ACK timeout of 4000 programs 8 periods,
    the last primitive the engine is told. *)
Lemma init_programs_timeslot_period_witness :
  exists e,
    gz_init (Some sample_config) (gz_state_zero, Mock.idle) =
      (GZ_OK, (set_initialized true (reset_state gz_state_zero), e)) /\
    last (Mock.log e) = Some (Mock.TTimeslotPeriod 8).
Proof.
  destruct (init_programs_timeslot_period sample_config gz_state_zero Mock.idle
              (Mock.note (Mock.TInit NRF_GZLL_MODE_DEVICE) Mock.idle))
    as [(rate & Hrate & Hrun) _].
  - unfold config_valid. simpl. lia.
  - reflexivity.
  - eexists. split; [exact Hrun|]. reflexivity.
Defined.

(** C1 at a concrete input: role 2 on a running Device link. *)
Lemma set_mode_unrecognized_role_witness :
  exists w',
    gz_set_mode 1 2 (link_in GZ_MODE_DEVICE, Mock.running) =
      Some (GZ_ERR_INVALID_CONFIG, w') /\
    initialized (fst w') = true /\
    mode (fst w') = GZ_MODE_DEVICE /\
    nrf_gzll_is_enabled (snd w') = false /\
    fst w' = link_in GZ_MODE_DEVICE.
Proof.
  eexists.
  refine ((fun P => conj (proj1 P) (conj (proj1 (proj2 P))
            (conj (proj1 (proj2 (proj2 P))) (conj (proj1 (proj2 (proj2 (proj2 P))))
               (proj2 (proj2 (proj2 (proj2 P))) eq_refl)))))
          (set_mode_unrecognized_role 1 1 2 (link_in GZ_MODE_DEVICE) Mock.running
             _ _ _ _ _ _)).
  - reflexivity.
  - discriminate.
  - discriminate.
  - reflexivity.
  - lia.
Defined.

(** C1 as stated fails: on a running engine, [gz_set_mode] with role 2
    returns [GZ_ERR_INVALID_CONFIG] after it told the engine to disable;
    the engine, enabled before the call, is disabled after it. *)
Lemma set_mode_unrecognized_role_disables_engine :
  exists w',
    gz_set_mode 1 2 (link_in GZ_MODE_DEVICE, Mock.running) =
      Some (GZ_ERR_INVALID_CONFIG, w') /\
    nrf_gzll_is_enabled Mock.running = true /\
    nrf_gzll_is_enabled (snd w') = false /\
    Mock.log Mock.running = [] /\
    Mock.log (snd w') = [Mock.TDisable] /\
    w' <> (link_in GZ_MODE_DEVICE, Mock.running).
Proof.
  eexists. split; [reflexivity|]. repeat split. discriminate.
Qed.

(** C6 at concrete inputs, one per precondition. *)
Lemma send_preconditions_in_order_witness :
  gz_send (Some sample_packet) 3 (gz_state_zero, Mock.idle) =
    (GZ_ERR_NOT_INITIALIZED, (gz_state_zero, Mock.idle)) /\
  gz_send None 3 (link_in GZ_MODE_DEVICE, Mock.running) =
    (GZ_ERR_INVALID_CONFIG, (link_in GZ_MODE_DEVICE, Mock.running)) /\
  gz_send (Some sample_packet) 0 (link_in GZ_MODE_DEVICE, Mock.running) =
    (GZ_ERR_FRAME_TOO_LARGE, (link_in GZ_MODE_DEVICE, Mock.running)) /\
  gz_send (Some sample_packet) 33 (link_in GZ_MODE_DEVICE, Mock.running) =
    (GZ_ERR_FRAME_TOO_LARGE, (link_in GZ_MODE_DEVICE, Mock.running)) /\
  gz_send (Some sample_packet) 3 (link_in GZ_MODE_HOST, Mock.running) =
    (GZ_ERR_INVALID_CONFIG, (link_in GZ_MODE_HOST, Mock.running)).
Proof.
  split; [|split; [|split; [|split]]].
  - destruct (send_preconditions_in_order (Some sample_packet) 3
                (gz_state_zero, Mock.idle)) as (Hcase & _).
    apply Hcase. reflexivity.
  - destruct (send_preconditions_in_order None 3
                (link_in GZ_MODE_DEVICE, Mock.running)) as (_ & Hcase & _).
    apply Hcase; reflexivity.
  - destruct (send_preconditions_in_order (Some sample_packet) 0
                (link_in GZ_MODE_DEVICE, Mock.running)) as (_ & _ & Hcase & _).
    apply Hcase; [reflexivity|discriminate|left; reflexivity].
  - destruct (send_preconditions_in_order (Some sample_packet) 33
                (link_in GZ_MODE_DEVICE, Mock.running)) as (_ & _ & Hcase & _).
    apply Hcase; [reflexivity|discriminate|right; reflexivity].
  - destruct (send_preconditions_in_order (Some sample_packet) 3
                (link_in GZ_MODE_HOST, Mock.running)) as (_ & _ & _ & Hcase).
    apply Hcase;
      [reflexivity|discriminate|unfold MAX_PAYLOAD_LENGTH; lia|discriminate].
Defined.

(** C9 at concrete inputs: a Host link and a Device link, each with
    every flag set. *)
Lemma flush_effect_witness :
  (exists s' e',
     gz_flush (set_tx_failed true (set_tx_success true host_with_packet),
               Mock.running) = (GZ_OK, (s', e')) /\
     Mock.log e' = [Mock.TFlushTx 0; Mock.TFlushRx 0] /\
     rx_ready s' = false /\ tx_success s' = false /\ tx_failed s' = false /\
     initialized s' = true /\ mode s' = GZ_MODE_HOST) /\
  (exists s' e',
     gz_flush (set_tx_failed true (set_tx_success true (link_in GZ_MODE_DEVICE)),
               Mock.running) = (GZ_OK, (s', e')) /\
     Mock.log e' = [Mock.TFlushTx 0] /\
     rx_ready s' = false /\ tx_success s' = false /\ tx_failed s' = false /\
     initialized s' = true /\ mode s' = GZ_MODE_DEVICE).
Proof.
  split.
  - destruct (flush_effect (set_tx_failed true (set_tx_success true host_with_packet))
                Mock.running eq_refl)
      as [(s' & Hrun & Hr & Hs & Hf & Hi & Hm & _) _].
    exists s'. eexists. split; [exact Hrun|]. repeat split; assumption.
  - destruct (flush_effect
                (set_tx_failed true (set_tx_success true (link_in GZ_MODE_DEVICE)))
                Mock.running eq_refl)
      as [(s' & Hrun & Hr & Hs & Hf & Hi & Hm & _) _].
    exists s'. eexists. split; [exact Hrun|]. repeat split; assumption.
Defined.

(** C3 at a concrete input: a 3-byte packet, first asked for with room
    for 2 bytes, then with room for 4. *)
Lemma recv_too_large_keeps_packet_witness :
  gz_recv (Some (caller_buffer 2)) (Some 7) 2 (host_with_packet, Mock.running) =
    Some {| rr_code := GZ_ERR_FRAME_TOO_LARGE; rr_buf := Some (caller_buffer 2);
            rr_len := Some 7; rr_world := (host_with_packet, Mock.running) |} /\
  gz_recv (Some (caller_buffer 4)) (Some 7) 4 (host_with_packet, Mock.running) =
    Some {| rr_code := GZ_OK;
            rr_buf := Some (sample_packet ++ [Byte.xff]);
            rr_len := Some 3;
            rr_world := (set_rx_ready false host_with_packet, Mock.running) |}.
Proof.
  destruct (recv_too_large_keeps_packet host_with_packet Mock.running
              (caller_buffer 2) 7 2) as [Hfirst Hnext].
  - reflexivity.
  - reflexivity.
  - reflexivity.
  - simpl. lia.
  - split; [exact Hfirst|].
    apply (Hnext (caller_buffer 4) 7 4);
      [unfold link_wf, MAX_PAYLOAD_LENGTH| |]; simpl; lia.
Defined.

(** C5 at concrete inputs: nothing buffered, then a 3-byte packet read
    into a 4-byte buffer and a second read right after. *)
Lemma recv_behaviour_witness :
  gz_recv (Some (caller_buffer 4)) (Some 7) 4 (link_in GZ_MODE_HOST, Mock.running) =
    Some {| rr_code := GZ_OK; rr_buf := Some (caller_buffer 4); rr_len := Some 0;
            rr_world := (link_in GZ_MODE_HOST, Mock.running) |} /\
  exists r,
    gz_recv (Some (caller_buffer 4)) (Some 7) 4 (host_with_packet, Mock.running) =
      Some r /\
    rr_code r = GZ_OK /\
    rr_buf r = Some (sample_packet ++ [Byte.xff]) /\
    rr_len r = Some 3 /\
    rx_ready (fst (rr_world r)) = false /\
    gz_recv (Some (caller_buffer 4)) (Some 7) 4 (rr_world r) =
      Some {| rr_code := GZ_OK; rr_buf := Some (caller_buffer 4);
              rr_len := Some 0; rr_world := rr_world r |}.
Proof.
  split.
  - destruct (recv_behaviour (link_in GZ_MODE_HOST) Mock.running
                (caller_buffer 4) 7 4) as [Hnone _].
    + reflexivity.
    + reflexivity.
    + apply Hnone. reflexivity.
  - destruct (recv_behaviour host_with_packet Mock.running
                (caller_buffer 4) 7 4) as [_ Hsome].
    + reflexivity.
    + reflexivity.
    + destruct Hsome as (r & Hrun & Hcode & Hbuf & Hlen & Hw & Hready & Hagain).
      * reflexivity.
      * simpl. lia.
      * unfold link_wf, MAX_PAYLOAD_LENGTH. simpl. lia.
      * simpl. lia.
      * exists r. repeat split; try assumption. apply Hagain.
Defined.

(** C2 at concrete inputs: an ACK seen at the fifth read, a failure seen
    at the second read, a budget that runs out, a full queue. *)
Lemma send_outcome_witness :
  fst (gz_send (Some sample_packet) 3 (link_in GZ_MODE_DEVICE, acking)) = GZ_OK /\
  fst (gz_send (Some sample_packet) 3 (link_in GZ_MODE_DEVICE, giving_up)) =
    GZ_ERR_SEND_FAILED /\
  fst (gz_send (Some sample_packet) 3 (link_in GZ_MODE_DEVICE, silent)) =
    GZ_ERR_SEND_FAILED /\
  fst (gz_send (Some sample_packet) 3 (link_in GZ_MODE_DEVICE, congested)) =
    GZ_ERR_BUSY.
Proof.
  assert (Hlen : 1 <= 3 <= MAX_PAYLOAD_LENGTH) by (unfold MAX_PAYLOAD_LENGTH; lia).
  split; [|split; [|split]].
  - destruct (send_outcome sample_packet 3 (link_in GZ_MODE_DEVICE) acking
                eq_refl eq_refl Hlen) as (_ & _ & _ & Hsent).
    destruct (Hsent _ eq_refl) as (Hok & _ & _).
    refine (f_equal fst (Hok 2%nat _ _ _)).
    + apply Nat.ltb_lt. vm_compute. reflexivity.
    + apply quiet_sound. vm_compute. reflexivity.
    + vm_compute. reflexivity.
  - destruct (send_outcome sample_packet 3 (link_in GZ_MODE_DEVICE) giving_up
                eq_refl eq_refl Hlen) as (_ & _ & _ & Hsent).
    destruct (Hsent _ eq_refl) as (_ & Hfail & _).
    refine (f_equal fst (Hfail 0%nat _ _ _ _)).
    + apply Nat.ltb_lt. vm_compute. reflexivity.
    + apply quiet_sound. vm_compute. reflexivity.
    + vm_compute. reflexivity.
    + vm_compute. reflexivity.
  - destruct (send_outcome sample_packet 3 (link_in GZ_MODE_DEVICE) silent
                eq_refl eq_refl Hlen) as (_ & _ & _ & Hsent).
    destruct (Hsent _ eq_refl) as (_ & _ & Htimeout).
    refine (f_equal fst (Htimeout _)).
    apply quiet_sound. vm_compute. reflexivity.
  - destruct (send_outcome sample_packet 3 (link_in GZ_MODE_DEVICE) congested
                eq_refl eq_refl Hlen) as (_ & _ & Hbusy & _).
    exact (f_equal fst (Hbusy _ eq_refl)).
Defined.

(** C8 at concrete inputs: a flush before any [gz_init], and a flush
    after the [gz_deinit] of a running link. *)
Lemma calls_on_uninitialized_link_witness :
  invoke 1 CallFlush (gz_state_zero, Mock.idle) =
    Some (RetCode GZ_ERR_NOT_INITIALIZED, (gz_state_zero, Mock.idle)) /\
  exists w1,
    gz_deinit 1 (link_in GZ_MODE_HOST, Mock.running) = Some w1 /\
    initialized (fst w1) = false /\
    invoke 1 CallFlush w1 = Some (RetCode GZ_ERR_NOT_INITIALIZED, w1).
Proof.
  destruct (calls_on_uninitialized_link (engine:=Mock.t) 1 CallFlush)
    as [Hbefore Hafter].
  split.
  - apply Hbefore. reflexivity.
  - apply (Hafter 1%nat 1%nat (link_in GZ_MODE_HOST, Mock.running)
             (link_in GZ_MODE_HOST,
              Mock.with_enabled false false (Mock.note Mock.TDisable
                (Mock.with_enabled true true Mock.running))));
      [reflexivity|reflexivity|lia].
Defined.

(** C8 as stated fails: before any [gz_init], [gz_is_ready] returns the
    boolean [false], whose value 0 is that of [GZ_OK] and not the -4 of
    [GZ_ERR_NOT_INITIALIZED]; [gz_deinit] returns nothing at all. *)
Lemma is_ready_uninitialized_returns_false :
  invoke 0 CallIsReady (gz_state_zero, Mock.idle) =
    Some (RetBool false, (gz_state_zero, Mock.idle)) /\
  RetBool false <> RetCode GZ_ERR_NOT_INITIALIZED /\
  return_value (RetBool false) = Some 0 /\
  return_value (RetCode GZ_ERR_NOT_INITIALIZED) = Some (-4) /\
  invoke 0 CallDeinit (gz_state_zero, Mock.idle) =
    Some (RetVoid, (gz_state_zero, Mock.idle)) /\
  return_value RetVoid = None.
Proof.
  split; [reflexivity|]. split; [discriminate|]. repeat split.
Qed.

(** ** Further properties of the operations *)

Section Initialisation.

Context {engine : Type} `{GazellEngine engine}.

Implicit Types (w : world engine) (s : gz_state_t) (e : engine).

(** X1. For a configuration whose fields hold values of their C types,
    [gz_init] returns [GZ_OK] exactly when the configuration is within
    every bound and the engine comes up; and whenever it returns
    [GZ_OK], [initialized] is set and the three flags are clear. *)
Theorem init_ok_iff (c : gz_config_t) w :
  config_in_range c ->
  (fst (gz_init (Some c) w) = GZ_OK <->
   config_valid c /\ fst (nrf_gzll_init NRF_GZLL_MODE_DEVICE (snd w)) = true) /\
  (fst (gz_init (Some c) w) = GZ_OK ->
   initialized (fst (snd (gz_init (Some c) w))) = true /\
   rx_ready (fst (snd (gz_init (Some c) w))) = false /\
   tx_success (fst (snd (gz_init (Some c) w))) = false /\
   tx_failed (fst (snd (gz_init (Some c) w))) = false).
Proof.
  intros (Hch & Hrate & _ & Hret & Hack).
  unfold gz_init, config_valid.
  destruct (Z.gtb_spec (channel c) 100);
    [split; [split; [discriminate|lia]|discriminate]|].
  destruct (Z.gtb_spec (data_rate c) 2);
    [split; [split; [discriminate|lia]|discriminate]|].
  destruct (Z.gtb_spec (max_retries c) 15);
    [split; [split; [discriminate|lia]|discriminate]|].
  destruct (Z.ltb_spec (ack_timeout_us c) 250);
    [split; [split; [discriminate|lia]|discriminate]|].
  destruct (Z.gtb_spec (ack_timeout_us c) 4000);
    [split; [split; [discriminate|lia]|discriminate]|].
  cbv [orb].
  destruct (nrf_gzll_init NRF_GZLL_MODE_DEVICE (snd w)) as [ok e1].
  destruct ok; cbv [negb fst];
    [|split; [split; [discriminate|intros [_ Hf]; discriminate]|discriminate]].
  destruct (datarate_of_valid (data_rate c) ltac:(lia)) as [rate ->].
  split; [split; [intros _; split; [lia|reflexivity]|reflexivity]|].
  intros _. repeat split.
Qed.

(** X2. Whatever the configuration and whatever the outcome, [gz_init]
    writes neither the role nor the receive buffer nor its length: a
    link re-initialised after use still carries the role it had. *)
Theorem init_keeps_role_and_buffer (config : option gz_config_t) w :
  mode (fst (snd (gz_init config w))) = mode (fst w) /\
  rx_buffer (fst (snd (gz_init config w))) = rx_buffer (fst w) /\
  rx_length (fst (snd (gz_init config w))) = rx_length (fst w).
Proof.
  unfold gz_init. destruct config as [c|]; [|auto].
  destruct (channel c >? 100); [auto|].
  destruct (data_rate c >? 2); [auto|].
  destruct (max_retries c >? 15); [auto|].
  destruct ((ack_timeout_us c <? 250) || (ack_timeout_us c >? 4000)); [auto|].
  destruct (nrf_gzll_init NRF_GZLL_MODE_DEVICE (snd w)) as [ok e1].
  destruct ok; cbv [negb]; [|auto].
  destruct (datarate_of (data_rate c)); auto.
Qed.

End Initialisation.

Lemma lor_shiftl_low (b a n : Z) :
  0 <= n -> 0 <= a < 2 ^ n -> Z.lor (Z.shiftl b n) a = b * 2 ^ n + a.
Proof.
  intros Hn Ha. rewrite Z.shiftl_mul_pow2 by lia.
  assert (Hand : Z.land (b * 2 ^ n) a = 0).
  { apply Z.bits_inj'. intros k Hk. rewrite Z.land_spec, Z.bits_0.
    destruct (Z.lt_ge_cases k n) as [Hlt|Hge].
    - rewrite Z.mul_pow2_bits_low by lia. reflexivity.
    - rewrite <- (Z.mod_small a (2 ^ n)) by lia.
      rewrite Z.mod_pow2_bits_high by lia. apply andb_false_r. }
  rewrite <- Z.lxor_lor by exact Hand.
  symmetry. apply Z.add_nocarry_lxor. exact Hand.
Qed.

(** X3. The base address is packed little-endian: for four bytes
    [b0 .. b3] the 32-bit word handed to the engine is
    [b0 + 2^8 b1 + 2^16 b2 + 2^24 b3], and each byte is read back from it
    at its position. *)
Theorem base_addr_little_endian (b0 b1 b2 b3 : Z) :
  0 <= b0 < 256 -> 0 <= b1 < 256 -> 0 <= b2 < 256 -> 0 <= b3 < 256 ->
  let v := base_addr_of [b0; b1; b2; b3] in
  v = b0 + 2 ^ 8 * b1 + 2 ^ 16 * b2 + 2 ^ 24 * b3 /\
  0 <= v < 2 ^ 32 /\
  v mod 256 = b0 /\ (v / 2 ^ 8) mod 256 = b1 /\
  (v / 2 ^ 16) mod 256 = b2 /\ (v / 2 ^ 24) mod 256 = b3.
Proof.
  intros H0 H1 H2 H3 v.
  assert (Hv : v = b0 + 2 ^ 8 * b1 + 2 ^ 16 * b2 + 2 ^ 24 * b3).
  { unfold v, base_addr_of. cbn [nth].
    rewrite (lor_shiftl_low b3 (Z.shiftl b2 16) 24)
      by (rewrite ?Z.shiftl_mul_pow2; lia).
    rewrite (Z.shiftl_mul_pow2 b2 16) by lia.
    change 24 with (8 + 16) at 1.
    rewrite Z.pow_add_r by lia. rewrite Z.mul_assoc, <- Z.mul_add_distr_r.
    rewrite <- (Z.shiftl_mul_pow2 _ 16) by lia.
    rewrite (lor_shiftl_low _ (Z.shiftl b1 8) 16)
      by (rewrite ?Z.shiftl_mul_pow2; lia).
    rewrite (Z.shiftl_mul_pow2 b1 8) by lia.
    change 16 with (8 + 8) at 1.
    rewrite Z.pow_add_r by lia. rewrite Z.mul_assoc, <- Z.mul_add_distr_r.
    rewrite <- (Z.shiftl_mul_pow2 _ 8) by lia.
    rewrite (lor_shiftl_low _ b0 8) by lia.
    rewrite Z.mod_small by lia. lia. }
  split; [exact Hv|]. split; [lia|].
  split; [|split; [|split]].
  - symmetry. apply (Z.mod_unique_pos v 256 (b1 + 2 ^ 8 * b2 + 2 ^ 16 * b3)); lia.
  - rewrite <- (Z.div_unique_pos v (2 ^ 8) (b1 + 2 ^ 8 * b2 + 2 ^ 16 * b3) b0) by lia.
    symmetry. apply (Z.mod_unique_pos _ 256 (b2 + 2 ^ 8 * b3)); lia.
  - rewrite <- (Z.div_unique_pos v (2 ^ 16) (b2 + 2 ^ 8 * b3) (b0 + 2 ^ 8 * b1)) by lia.
    symmetry. apply (Z.mod_unique_pos _ 256 b3); lia.
  - rewrite <- (Z.div_unique_pos v (2 ^ 24) b3 (b0 + 2 ^ 8 * b1 + 2 ^ 16 * b2)) by lia.
    apply Z.mod_small; lia.
Qed.

(** X4. The timeslot period is never 0, whatever the timeout; and for a
    timeout within the validation bounds it lies between 1 and 8 and
    does not decrease when the timeout grows. *)
Theorem timeslot_period_bounds (a b : Z) :
  1 <= timeslot_of a /\
  (250 <= a <= 4000 -> timeslot_of a <= 8) /\
  (0 <= a <= b -> timeslot_of a <= timeslot_of b).
Proof.
  rewrite !timeslot_of_max. split; [lia|]. split.
  - intros Ha. rewrite Z.quot_div_nonneg by lia.
    assert (a / 500 <= 4000 / 500) by (apply Z.div_le_mono; lia).
    change (4000 / 500) with 8 in *. lia.
  - intros Hab. rewrite !Z.quot_div_nonneg by lia.
    assert (a / 500 <= b / 500) by (apply Z.div_le_mono; lia). lia.
Qed.

Section ModeSelection.

Context {engine : Type} `{GazellEngine engine}.

Implicit Types (w : world engine) (s : gz_state_t) (e : engine).

Lemma world_after_next j w :
  world_after (S j) w = world_after j (preempt w).
Proof.
  replace (S j) with (j + 1)%nat by lia.
  rewrite (world_after_add j 1). reflexivity.
Qed.

Lemma wait_disabled_stops_at k : forall fuel w,
  (1 <= k <= fuel)%nat ->
  (forall j, (1 <= j < k)%nat ->
     nrf_gzll_is_enabled (snd (world_after j w)) = true) ->
  nrf_gzll_is_enabled (snd (world_after k w)) = false ->
  wait_disabled fuel w = Some (world_after k w).
Proof.
  induction k as [|k IH]; intros fuel w Hk Hbefore Hstop; [lia|].
  destruct fuel as [|fuel]; [lia|]. simpl wait_disabled.
  destruct k as [|k].
  - simpl in Hstop. rewrite Hstop. reflexivity.
  - pose proof (Hbefore 1%nat ltac:(lia)) as Hfirst. simpl in Hfirst.
    rewrite Hfirst.
    rewrite world_after_next in Hstop. rewrite world_after_next.
    apply IH; [lia| |exact Hstop].
    intros j Hj. rewrite <- world_after_next. apply Hbefore. lia.
Qed.

Lemma wait_disabled_spins fuel : forall w,
  (forall j, (1 <= j <= fuel)%nat ->
     nrf_gzll_is_enabled (snd (world_after j w)) = true) ->
  wait_disabled fuel w = None.
Proof.
  induction fuel as [|fuel IH]; intros w Hen; [reflexivity|].
  simpl wait_disabled.
  pose proof (Hen 1%nat ltac:(lia)) as Hfirst. simpl in Hfirst. rewrite Hfirst.
  apply IH. intros j Hj. rewrite <- world_after_next. apply Hen. lia.
Qed.

(** X5. The wait for the engine to disable, in [gz_set_mode] and
    [gz_deinit], ends at the first poll at which the engine reports
    disabled: with the engine still enabled at the polls before the
    [k]-th and disabled at the [k]-th, the wait returns the world of that
    poll, for any number of polls allowed from [k] on. *)
Theorem disable_wait_ends_at_first_disabled_poll (k fuel : nat) w :
  (1 <= k <= fuel)%nat ->
  (forall j, (1 <= j < k)%nat ->
     nrf_gzll_is_enabled (snd (world_after j w)) = true) ->
  nrf_gzll_is_enabled (snd (world_after k w)) = false ->
  wait_disabled fuel w = Some (world_after k w).
Proof. apply wait_disabled_stops_at. Qed.

(** X6. The wait has no timeout: on an initialised link, as long as the
    engine reports enabled at every poll, neither [gz_set_mode] nor
    [gz_deinit] returns, however many polls are allowed. *)
Theorem disable_wait_has_no_timeout (fuel : nat) (m : gz_mode_t) s e :
  initialized s = true ->
  (forall j, (1 <= j <= fuel)%nat ->
     nrf_gzll_is_enabled (snd (world_after j (s, nrf_gzll_disable e))) = true) ->
  gz_set_mode fuel m (s, e) = None /\ gz_deinit fuel (s, e) = None.
Proof.
  intros Hinit Hen. unfold gz_set_mode, gz_deinit. simpl fst. simpl snd.
  rewrite Hinit. simpl negb. cbv iota.
  rewrite (wait_disabled_spins _ _ Hen). split; reflexivity.
Qed.

(** X7. On an initialised link, [gz_set_mode] with role Device or Host
    returns [GZ_OK] when the engine disables, re-initialises in the
    matching engine role and enables: the role is then the one asked
    for, the rest of the link state is what the wait left, and the
    engine has gone through disable, init and enable in that order. *)
Theorem set_mode_succeeds (n fuel : nat) (m : gz_mode_t) s e w1 e2 e3 :
  initialized s = true ->
  m = GZ_MODE_DEVICE \/ m = GZ_MODE_HOST ->
  wait_disabled n (s, nrf_gzll_disable e) = Some w1 ->
  (n <= fuel)%nat ->
  nrf_gzll_init (nrf_mode_of m) (snd w1) = (true, e2) ->
  nrf_gzll_enable e2 = (true, e3) ->
  gz_set_mode fuel m (s, e) = Some (GZ_OK, (set_mode m (fst w1), e3)).
Proof.
  intros Hinit Hm Hwait Hle Hstart Henable.
  unfold gz_set_mode. simpl fst. simpl snd. rewrite Hinit. simpl negb. cbv iota.
  rewrite (wait_disabled_more_fuel _ _ _ _ Hwait Hle).
  destruct Hm as [-> | ->]; simpl; unfold restart_as;
    unfold nrf_mode_of in Hstart; simpl in Hstart;
    rewrite Hstart; simpl; rewrite Henable; reflexivity.
Qed.

(** X8. [gz_set_mode] never writes [initialized], and writes the role
    only when it returns [GZ_OK]: then the role is the one asked for,
    which is Device or Host; with any other result ([GZ_ERR_NOT_INITIALIZED],
    [GZ_ERR_INVALID_CONFIG], [GZ_ERR_HARDWARE]) the role is as before. *)
Theorem set_mode_writes_role_only_on_ok (fuel : nat) (m : gz_mode_t) w r w' :
  gz_set_mode fuel m w = Some (r, w') ->
  initialized (fst w') = initialized (fst w) /\
  (r = GZ_OK ->
   mode (fst w') = m /\ (m = GZ_MODE_DEVICE \/ m = GZ_MODE_HOST)) /\
  (r <> GZ_OK ->
   mode (fst w') = mode (fst w) /\
   (r = GZ_ERR_NOT_INITIALIZED \/ r = GZ_ERR_INVALID_CONFIG \/
    r = GZ_ERR_HARDWARE)).
Proof.
  unfold gz_set_mode. destruct (initialized (fst w)) eqn:Hinit; simpl negb; cbv iota.
  2:{ intros [= <- <-]. rewrite Hinit. split; [reflexivity|].
      split; [discriminate|]. auto. }
  destruct (wait_disabled fuel _) as [w1|] eqn:Hwait; [|discriminate].
  destruct (wait_disabled_keeps_lifecycle _ _ _ Hwait) as (Hi & Hm & _).
  simpl in Hi, Hm. rewrite Hinit in Hi.
  assert (Hrestart : forall nm,
            Some (restart_as nm m w1) = Some (r, w') ->
            initialized (fst w') = true /\
            (r = GZ_OK -> mode (fst w') = m) /\
            (r <> GZ_OK -> mode (fst w') = mode (fst w) /\
               (r = GZ_ERR_NOT_INITIALIZED \/ r = GZ_ERR_INVALID_CONFIG \/
                r = GZ_ERR_HARDWARE))).
  { intros nm. unfold restart_as.
    destruct (nrf_gzll_init nm (snd w1)) as [ok e2].
    destruct ok; simpl negb; cbv iota.
    - destruct (nrf_gzll_enable e2) as [ok' e3].
      destruct ok'; simpl negb; cbv iota; intros [= <- <-]; simpl;
        (split; [exact Hi|]); split;
        try discriminate; try congruence; auto.
    - intros [= <- <-]. simpl. split; [exact Hi|]. split; [discriminate|auto]. }
  destruct (Z.eqb_spec m GZ_MODE_DEVICE) as [Hd|Hd].
  - intros Hr. destruct (Hrestart _ Hr) as (Hi' & Hok & Hko).
    split; [exact Hi'|]. split; [|exact Hko]. intros Hr'. auto.
  - destruct (Z.eqb_spec m GZ_MODE_HOST) as [Hh|Hh].
    + intros Hr. destruct (Hrestart _ Hr) as (Hi' & Hok & Hko).
      split; [exact Hi'|]. split; [|exact Hko]. intros Hr'. auto.
    + intros [= <- <-]. split; [exact Hi|]. split; [discriminate|auto].
Qed.

End ModeSelection.

Section SendMore.

Context {engine : Type} `{GazellEngine engine}.

Implicit Types (w : world engine) (s : gz_state_t) (e : engine).

Lemma tx_wait_keeps_lifecycle n : forall w,
  initialized (fst (snd (tx_wait n w))) = initialized (fst w) /\
  mode (fst (snd (tx_wait n w))) = mode (fst w).
Proof.
  induction n as [|n IH]; intros w; simpl tx_wait; [auto|].
  destruct (preempt_keeps_lifecycle w) as [Hi1 Hm1].
  destruct (preempt_keeps_lifecycle (preempt w)) as [Hi2 Hm2].
  destruct (tx_success (fst (preempt w))); [simpl; auto|].
  destruct (tx_failed (fst (preempt (preempt w)))).
  - simpl. rewrite Hi2, Hm2. auto.
  - destruct (IH (preempt (preempt w))) as [-> ->]. rewrite Hi2, Hm2. auto.
Qed.

Lemma tx_wait_code n : forall w,
  fst (tx_wait n w) = GZ_OK /\ tx_success (fst (snd (tx_wait n w))) = true \/
  fst (tx_wait n w) = GZ_ERR_SEND_FAILED.
Proof.
  induction n as [|n IH]; intros w; simpl tx_wait; [auto|].
  destruct (tx_success (fst (preempt w))) eqn:Hs; [simpl; auto|].
  destruct (tx_failed (fst (preempt (preempt w)))); [simpl; auto|].
  apply IH.
Qed.

Lemma tx_wait_bounded n : forall w,
  exists j, (Nat.min 1 n <= j <= 2 * n)%nat /\
            snd (tx_wait n w) = world_after j w.
Proof.
  induction n as [|n IH]; intros w; simpl tx_wait.
  - exists 0%nat. split; [lia|reflexivity].
  - destruct (tx_success (fst (preempt w))).
    + exists 1%nat. split; [lia|reflexivity].
    + destruct (tx_failed (fst (preempt (preempt w)))).
      * exists 2%nat. split; [lia|reflexivity].
      * destruct (IH (preempt (preempt w))) as (j & Hj & Hw).
        exists (j + 2)%nat. split; [lia|].
        rewrite Hw. rewrite (world_after_add j 2). reflexivity.
Qed.

(** The three ways a [gz_send] can go. *)
Lemma gz_send_cases (data : option (list Byte.byte)) (len : Z) w :
  (gz_send data len w = (GZ_ERR_NOT_INITIALIZED, w) \/
   gz_send data len w = (GZ_ERR_INVALID_CONFIG, w) \/
   gz_send data len w = (GZ_ERR_FRAME_TOO_LARGE, w)) \/
  exists bytes ok e1,
    data = Some bytes /\ initialized (fst w) = true /\
    mode (fst w) = GZ_MODE_DEVICE /\
    (len <> 0 /\ len <= MAX_PAYLOAD_LENGTH) /\
    nrf_gzll_add_packet_to_tx_fifo 0 bytes len (snd w) = (ok, e1) /\
    gz_send data len w =
      if ok
      then tx_wait (Z.to_nat TX_TIMEOUT)
             (set_tx_failed false (set_tx_success false (fst w)), e1)
      else (GZ_ERR_BUSY, (set_tx_failed false (set_tx_success false (fst w)), e1)).
Proof.
  unfold gz_send, MAX_PAYLOAD_LENGTH.
  destruct (initialized (fst w)) eqn:Hinit; cbv [negb]; [|auto].
  destruct data as [bytes|]; [|auto].
  destruct (Z.eqb_spec len 0); [auto|].
  destruct (Z.gtb_spec len 32); [auto|]. cbv [orb].
  destruct (Z.eqb_spec (mode (fst w)) GZ_MODE_DEVICE) as [Hm|Hm]; [|auto].
  right.
  destruct (nrf_gzll_add_packet_to_tx_fifo 0 bytes len (snd w)) as [ok e1] eqn:Hadd.
  exists bytes, ok, e1. repeat split; try assumption; try lia.
  destruct ok; reflexivity.
Qed.

(** X9. [gz_send] never writes [initialized] or the role, on any path
    and whatever callbacks run while it waits. *)
Theorem send_keeps_lifecycle (data : option (list Byte.byte)) (len : Z) w :
  initialized (fst (snd (gz_send data len w))) = initialized (fst w) /\
  mode (fst (snd (gz_send data len w))) = mode (fst w).
Proof.
  destruct (gz_send_cases data len w)
    as [[-> | [-> | ->]] | (bytes & ok & e1 & _ & _ & _ & _ & _ & ->)];
    [auto|auto|auto|].
  destruct ok; [|auto].
  destruct (tx_wait_keeps_lifecycle (Z.to_nat TX_TIMEOUT)
              (set_tx_failed false (set_tx_success false (fst w)), e1))
    as [-> ->]. auto.
Qed.

(** X10. [gz_send] returns [GZ_OK] only when every precondition held,
    the engine's queue took the packet, and [tx_success] is set on
    return: the flag is left set after a successful send.  ([len] is a
    [uint8_t].) *)
Theorem send_ok_only_after_success (data : option (list Byte.byte)) (len : Z)
    w w' :
  0 <= len < 256 ->
  gz_send data len w = (GZ_OK, w') ->
  tx_success (fst w') = true /\
  initialized (fst w) = true /\ mode (fst w) = GZ_MODE_DEVICE /\
  1 <= len <= MAX_PAYLOAD_LENGTH /\
  exists bytes,
    data = Some bytes /\
    fst (nrf_gzll_add_packet_to_tx_fifo 0 bytes len (snd w)) = true.
Proof.
  intros Hu8 Hrun. unfold MAX_PAYLOAD_LENGTH.
  destruct (gz_send_cases data len w)
    as [[Hc | [Hc | Hc]] | (bytes & ok & e1 & Hd & Hi & Hm & Hl & Hadd & Hc)];
    rewrite Hc in Hrun; try discriminate.
  unfold MAX_PAYLOAD_LENGTH in Hl.
  destruct ok; [|discriminate].
  destruct (tx_wait_code (Z.to_nat TX_TIMEOUT)
              (set_tx_failed false (set_tx_success false (fst w)), e1))
    as [[_ Hflag] | Hcode]; rewrite Hrun in *; cbn [fst snd] in *;
    [|discriminate].
  repeat split; try assumption; try lia.
  exists bytes. rewrite Hadd. auto.
Qed.

(** X11. The wait of [gz_send] is bounded: once the queue has taken the
    packet, the call returns after at least one and at most
    [2 * TX_TIMEOUT] preemption points (two flag reads per iteration),
    with [GZ_OK] or [GZ_ERR_SEND_FAILED]. *)
Theorem send_wait_is_bounded (bytes : list Byte.byte) (len : Z) s e e1 :
  initialized s = true -> mode s = GZ_MODE_DEVICE ->
  1 <= len <= MAX_PAYLOAD_LENGTH ->
  nrf_gzll_add_packet_to_tx_fifo 0 bytes len e = (true, e1) ->
  exists j,
    (1 <= j <= 2 * Z.to_nat TX_TIMEOUT)%nat /\
    snd (gz_send (Some bytes) len (s, e)) =
      world_after j (set_tx_failed false (set_tx_success false s), e1) /\
    (fst (gz_send (Some bytes) len (s, e)) = GZ_OK \/
     fst (gz_send (Some bytes) len (s, e)) = GZ_ERR_SEND_FAILED).
Proof.
  intros Hinit Hmode Hlen Hadd.
  assert (Hrun : gz_send (Some bytes) len (s, e) =
            tx_wait (Z.to_nat TX_TIMEOUT)
              (set_tx_failed false (set_tx_success false s), e1)).
  { unfold gz_send, MAX_PAYLOAD_LENGTH in *. cbv [fst snd].
    rewrite Hinit, Hmode. cbv [negb].
    destruct (Z.eqb_spec len 0); [lia|].
    destruct (Z.gtb_spec len 32); [lia|]. cbv [orb].
    change (GZ_MODE_DEVICE =? GZ_MODE_DEVICE) with true. cbv iota.
    rewrite Hadd. reflexivity. }
  rewrite Hrun.
  destruct (tx_wait_bounded (Z.to_nat TX_TIMEOUT)
              (set_tx_failed false (set_tx_success false s), e1))
    as (j & Hj & Hw).
  exists j. split; [unfold TX_TIMEOUT in *; lia|]. split; [exact Hw|].
  destruct (tx_wait_code (Z.to_nat TX_TIMEOUT)
              (set_tx_failed false (set_tx_success false s), e1))
    as [[Hc _] | Hc]; auto.
Qed.

End SendMore.

Section ReceiveMore.

Context {engine : Type} `{GazellEngine engine}.

Implicit Types (w : world engine) (s : gz_state_t) (e : engine).

(** X12. [gz_recv] examines its preconditions in this order and writes
    nothing when one fails: link not initialised gives
    [GZ_ERR_NOT_INITIALIZED]; else a null buffer or a null length
    pointer gives [GZ_ERR_INVALID_CONFIG]; else a role other than Host
    gives [GZ_ERR_INVALID_CONFIG]. *)
Theorem recv_preconditions_in_order
    (out_buf : option (list Byte.byte)) (out_len : option Z) (max_len : Z) w :
  (initialized (fst w) = false ->
   gz_recv out_buf out_len max_len w =
     Some {| rr_code := GZ_ERR_NOT_INITIALIZED; rr_buf := out_buf;
             rr_len := out_len; rr_world := w |}) /\
  (initialized (fst w) = true -> out_buf = None \/ out_len = None ->
   gz_recv out_buf out_len max_len w =
     Some {| rr_code := GZ_ERR_INVALID_CONFIG; rr_buf := out_buf;
             rr_len := out_len; rr_world := w |}) /\
  (initialized (fst w) = true -> out_buf <> None -> out_len <> None ->
   mode (fst w) <> GZ_MODE_HOST ->
   gz_recv out_buf out_len max_len w =
     Some {| rr_code := GZ_ERR_INVALID_CONFIG; rr_buf := out_buf;
             rr_len := out_len; rr_world := w |}).
Proof.
  unfold gz_recv. split; [|split].
  - intros ->. reflexivity.
  - intros -> [-> | ->]; [reflexivity|]. destruct out_buf; reflexivity.
  - intros -> Hb Hl Hm.
    destruct out_buf as [buf|]; [|contradiction].
    destruct out_len as [l|]; [|contradiction]. simpl.
    destruct (Z.eqb_spec (mode (fst w)) GZ_MODE_HOST); [contradiction|].
    reflexivity.
Qed.

(** X13. [gz_recv] never calls the engine and writes no field of the
    link state but [rx_ready]; when it returns anything but [GZ_OK] it
    has written nothing at all, neither in the link state nor in the
    caller's buffer and length cell. *)
Theorem recv_writes_only_rx_ready
    (out_buf : option (list Byte.byte)) (out_len : option Z) (max_len : Z)
    w r :
  gz_recv out_buf out_len max_len w = Some r ->
  snd (rr_world r) = snd w /\
  (fst (rr_world r) = fst w \/ fst (rr_world r) = set_rx_ready false (fst w)) /\
  (rr_code r <> GZ_OK ->
   rr_world r = w /\ rr_buf r = out_buf /\ rr_len r = out_len).
Proof.
  unfold gz_recv.
  destruct (initialized (fst w)); simpl negb; cbv iota;
    [|intros [= <-]; simpl; auto].
  destruct out_buf as [buf|]; [|intros [= <-]; simpl; auto].
  destruct out_len as [l|]; [|intros [= <-]; simpl; auto].
  destruct (mode (fst w) =? GZ_MODE_HOST); simpl negb; cbv iota;
    [|intros [= <-]; simpl; auto].
  destruct (rx_ready (fst w)); simpl negb; cbv iota;
    [|intros [= <-]; simpl; split; [reflexivity|]; split;
      [auto|intros Hc; contradiction]].
  destruct (rx_length (fst w) >? max_len); [intros [= <-]; simpl; auto|].
  destruct (copy_out _ _ _ _); [|discriminate].
  intros [= <-]. simpl. split; [reflexivity|]. split; [auto|].
  intros Hc. contradiction.
Qed.

(** The link state after a receive event whose fetch the engine answers
    with [(ok, buf, n)]. *)
Lemma rx_data_ready_state (pipe : Z) s e ok (buf : list Byte.byte) (n : Z) e' :
  nrf_gzll_fetch_packet_from_rx_fifo pipe (rx_buffer s) MAX_PAYLOAD_LENGTH e =
    ((ok, buf, n), e') ->
  nrf_gzll_host_rx_data_ready pipe (s, e) =
    (set_rx_ready (ok || rx_ready s)
       (set_rx_length n (set_rx_buffer buf s)), e').
Proof.
  intros Hfetch. unfold nrf_gzll_host_rx_data_ready. simpl.
  rewrite Hfetch. destruct ok; reflexivity.
Qed.

(** X14. Delivery then receive: after the receive callback fetched a
    packet of [n <= 32] bytes into the 32-byte buffer, a [gz_recv] on
    the initialised Host link with room for it returns [GZ_OK], exactly
    those [n] bytes at the front of the caller's buffer and the length
    [n], and clears [rx_ready]. *)
Theorem delivery_then_recv (pipe : Z) s e (buf : list Byte.byte) (n : Z) e'
    (out : list Byte.byte) (l max_len : Z) :
  initialized s = true -> mode s = GZ_MODE_HOST ->
  nrf_gzll_fetch_packet_from_rx_fifo pipe (rx_buffer s) MAX_PAYLOAD_LENGTH e =
    ((true, buf, n), e') ->
  length buf = Z.to_nat MAX_PAYLOAD_LENGTH -> 0 <= n <= MAX_PAYLOAD_LENGTH ->
  n <= max_len -> max_len <= Z.of_nat (length out) ->
  exists r,
    gz_recv (Some out) (Some l) max_len
      (nrf_gzll_host_rx_data_ready pipe (s, e)) = Some r /\
    rr_code r = GZ_OK /\
    rr_buf r = Some (take (Z.to_nat n) buf ++ drop (Z.to_nat n) out) /\
    rr_len r = Some n /\
    rx_ready (fst (rr_world r)) = false /\
    snd (rr_world r) = e'.
Proof.
  intros Hinit Hmode Hfetch Hbuf Hn Hfit Hout.
  rewrite (rx_data_ready_state _ _ _ _ _ _ _ Hfetch).
  eexists. split.
  - apply recv_delivers; simpl; try assumption; try reflexivity.
    split; assumption.
  - simpl. repeat split.
Qed.

(** X15. One buffer, no queue: when a second receive event fetches a
    packet before the first was read, the first is gone.  The next
    [gz_recv] returns the second packet, and the one after it returns
    length 0. *)
Theorem second_delivery_overwrites_first (pipe1 pipe2 : Z) s e
    (buf1 buf2 : list Byte.byte) (n1 n2 : Z) e1 e2
    (out : list Byte.byte) (l max_len : Z) :
  initialized s = true -> mode s = GZ_MODE_HOST ->
  nrf_gzll_fetch_packet_from_rx_fifo pipe1 (rx_buffer s) MAX_PAYLOAD_LENGTH e =
    ((true, buf1, n1), e1) ->
  nrf_gzll_fetch_packet_from_rx_fifo pipe2 buf1 MAX_PAYLOAD_LENGTH e1 =
    ((true, buf2, n2), e2) ->
  length buf2 = Z.to_nat MAX_PAYLOAD_LENGTH -> 0 <= n2 <= MAX_PAYLOAD_LENGTH ->
  n2 <= max_len -> max_len <= Z.of_nat (length out) ->
  exists r,
    gz_recv (Some out) (Some l) max_len
      (nrf_gzll_host_rx_data_ready pipe2
         (nrf_gzll_host_rx_data_ready pipe1 (s, e))) = Some r /\
    rr_code r = GZ_OK /\
    rr_buf r = Some (take (Z.to_nat n2) buf2 ++ drop (Z.to_nat n2) out) /\
    rr_len r = Some n2 /\
    forall (out' : list Byte.byte) (l' max_len' : Z),
      gz_recv (Some out') (Some l') max_len' (rr_world r) =
        Some {| rr_code := GZ_OK; rr_buf := Some out'; rr_len := Some 0;
                rr_world := rr_world r |}.
Proof.
  intros Hinit Hmode Hfetch1 Hfetch2 Hbuf Hn Hfit Hout.
  rewrite (rx_data_ready_state _ _ _ _ _ _ _ Hfetch1).
  rewrite (rx_data_ready_state pipe2 _ _ true buf2 n2 e2) by exact Hfetch2.
  eexists. split.
  - apply recv_delivers; simpl; try assumption; try reflexivity.
    split; assumption.
  - simpl. repeat split.
    intros out' l' max_len'.
    apply recv_nothing_buffered; [exact Hinit|exact Hmode|reflexivity].
Qed.

(** X16. A receive event whose fetch fails does not set [rx_ready], but
    the buffer and the length were handed to the engine all the same:
    with a packet pending, the next [gz_recv] returns what the failed
    fetch left in them, not the pending packet. *)
Theorem failed_fetch_replaces_pending_packet (pipe : Z) s e
    (buf : list Byte.byte) (n : Z) e' (out : list Byte.byte) (l max_len : Z) :
  initialized s = true -> mode s = GZ_MODE_HOST -> rx_ready s = true ->
  nrf_gzll_fetch_packet_from_rx_fifo pipe (rx_buffer s) MAX_PAYLOAD_LENGTH e =
    ((false, buf, n), e') ->
  length buf = Z.to_nat MAX_PAYLOAD_LENGTH -> 0 <= n <= MAX_PAYLOAD_LENGTH ->
  n <= max_len -> max_len <= Z.of_nat (length out) ->
  exists r,
    gz_recv (Some out) (Some l) max_len
      (nrf_gzll_host_rx_data_ready pipe (s, e)) = Some r /\
    rr_code r = GZ_OK /\
    rr_buf r = Some (take (Z.to_nat n) buf ++ drop (Z.to_nat n) out) /\
    rr_len r = Some n /\
    rx_ready (fst (rr_world r)) = false.
Proof.
  intros Hinit Hmode Hready Hfetch Hbuf Hn Hfit Hout.
  rewrite (rx_data_ready_state _ _ _ _ _ _ _ Hfetch).
  eexists. split.
  - apply recv_delivers; simpl; try assumption; try reflexivity.
    split; assumption.
  - simpl. repeat split.
Qed.

(** X17. [gz_flush] discards a buffered packet: on an initialised Host
    link, whatever was pending, a [gz_recv] right after [gz_flush]
    returns [GZ_OK] with length 0 and leaves the caller's buffer alone. *)
Theorem flush_then_recv_is_empty s e (out : list Byte.byte) (l max_len : Z) :
  initialized s = true -> mode s = GZ_MODE_HOST ->
  fst (gz_flush (s, e)) = GZ_OK /\
  gz_recv (Some out) (Some l) max_len (snd (gz_flush (s, e))) =
    Some {| rr_code := GZ_OK; rr_buf := Some out; rr_len := Some 0;
            rr_world := snd (gz_flush (s, e)) |}.
Proof.
  intros Hinit Hmode. unfold gz_flush. simpl fst. simpl snd.
  rewrite Hinit. simpl negb. cbv iota. split; [reflexivity|].
  simpl snd. apply recv_nothing_buffered; [exact Hinit|exact Hmode|reflexivity].
Qed.

End ReceiveMore.

Section ReturnCodes.

Context {engine : Type} `{GazellEngine engine}.

Implicit Types (w : world engine) (s : gz_state_t) (e : engine).

(** X18. [GZ_ERR_RECEIVE_FAILED] is declared and never returned: not by
    [gz_init], and not by any other call, in any state and on any
    engine. *)
Theorem receive_failed_is_never_returned :
  (forall (config : option gz_config_t) w,
     fst (gz_init config w) <> GZ_ERR_RECEIVE_FAILED) /\
  (forall (fuel : nat) (c : gz_call) w w',
     invoke fuel c w <> Some (RetCode GZ_ERR_RECEIVE_FAILED, w')).
Proof.
  split.
  - intros config w. unfold gz_init. destruct config as [c|]; [|discriminate].
    destruct (channel c >? 100); [discriminate|].
    destruct (data_rate c >? 2); [discriminate|].
    destruct (max_retries c >? 15); [discriminate|].
    destruct ((ack_timeout_us c <? 250) || (ack_timeout_us c >? 4000));
      [discriminate|].
    destruct (nrf_gzll_init NRF_GZLL_MODE_DEVICE (snd w)) as [ok e1].
    destruct ok; cbv [negb]; [|discriminate].
    destruct (datarate_of (data_rate c)); discriminate.
  - intros fuel c w w'. destruct c as [m|data len|out_buf out_len max_len| | |];
      unfold invoke.
    + unfold gz_set_mode.
      destruct (initialized (fst w)); simpl negb; cbv iota; [|discriminate].
      destruct (wait_disabled fuel _) as [w1|]; [|discriminate].
      assert (Hrestart : forall nm,
                fst (restart_as nm m w1) <> GZ_ERR_RECEIVE_FAILED).
      { intros nm. unfold restart_as.
        destruct (nrf_gzll_init nm (snd w1)) as [ok e2].
        destruct ok; simpl negb; cbv iota; [|discriminate].
        destruct (nrf_gzll_enable e2) as [ok' e3].
        destruct ok'; discriminate. }
      destruct (m =? GZ_MODE_DEVICE);
        [specialize (Hrestart NRF_GZLL_MODE_DEVICE);
         destruct (restart_as _ m w1) as [r w2]; simpl in Hrestart; congruence|].
      destruct (m =? GZ_MODE_HOST);
        [specialize (Hrestart NRF_GZLL_MODE_HOST);
         destruct (restart_as _ m w1) as [r w2]; simpl in Hrestart; congruence|].
      discriminate.
    + destruct (gz_send_cases data len w)
        as [[-> | [-> | ->]] | (bytes & ok & e1 & _ & _ & _ & _ & _ & ->)];
        try discriminate.
      destruct ok; [|discriminate].
      destruct (tx_wait_code (Z.to_nat TX_TIMEOUT)
                  (set_tx_failed false (set_tx_success false (fst w)), e1))
        as [[Hc _] | Hc];
        destruct (tx_wait _ _) as [r w2]; cbn [fst] in Hc; subst r; discriminate.
    + unfold gz_recv.
      destruct (initialized (fst w)); simpl negb; cbv iota; [|discriminate].
      destruct out_buf as [buf|]; [|discriminate].
      destruct out_len as [l|]; [|discriminate].
      destruct (mode (fst w) =? GZ_MODE_HOST); simpl negb; cbv iota;
        [|discriminate].
      destruct (rx_ready (fst w)); simpl negb; cbv iota; [|discriminate].
      destruct (rx_length (fst w) >? max_len); [discriminate|].
      destruct (copy_out _ _ _ _); discriminate.
    + discriminate.
    + unfold gz_flush. destruct (initialized (fst w)); discriminate.
    + destruct (gz_deinit fuel w); discriminate.
Qed.

End ReturnCodes.

(** ** The further properties on the sample engines *)

(** X1 at a concrete input: the sample configuration on an idle engine. *)
Lemma init_ok_iff_witness :
  fst (gz_init (Some sample_config) (gz_state_zero, Mock.idle)) = GZ_OK /\
  initialized (fst (snd (gz_init (Some sample_config)
                           (gz_state_zero, Mock.idle)))) = true.
Proof.
  destruct (init_ok_iff sample_config (gz_state_zero, Mock.idle))
    as [[_ Hok] Hstate].
  - unfold config_in_range. simpl. lia.
  - assert (Hcode : fst (gz_init (Some sample_config)
                           (gz_state_zero, Mock.idle)) = GZ_OK).
    { apply Hok. split; [unfold config_valid; simpl; lia|reflexivity]. }
    split; [exact Hcode|]. apply (Hstate Hcode).
Defined.

(** X3 at a concrete input: the base address of the sample configuration. *)
Lemma base_addr_little_endian_witness :
  base_addr_of [1; 2; 3; 4] = 0x04030201 /\
  (base_addr_of [1; 2; 3; 4] / 2 ^ 16) mod 256 = 3.
Proof.
  destruct (base_addr_little_endian 1 2 3 4) as (Hv & _ & _ & _ & Hb2 & _);
    [lia|lia|lia|lia|].
  split; [exact Hv|exact Hb2].
Defined.

(** X4 at concrete inputs: the two ends of the valid range. *)
Lemma timeslot_period_bounds_witness :
  timeslot_of 4000 <= 8 /\ timeslot_of 250 <= timeslot_of 4000.
Proof.
  destruct (timeslot_period_bounds 4000 4000) as (_ & Hmax & _).
  destruct (timeslot_period_bounds 250 4000) as (_ & _ & Hmono).
  split; [apply Hmax; lia|apply Hmono; lia].
Defined.

(** X5 at a concrete input: an engine that needs three polls. *)
Lemma disable_wait_ends_at_first_disabled_poll_witness :
  wait_disabled 5 (link_in GZ_MODE_DEVICE, 3%nat) =
    Some (world_after 3 (link_in GZ_MODE_DEVICE, 3%nat)) /\
  snd (world_after 3 (link_in GZ_MODE_DEVICE, 3%nat)) = 0%nat.
Proof.
  split; [|reflexivity].
  apply (disable_wait_ends_at_first_disabled_poll 3 5).
  - lia.
  - intros j Hj. assert (Hcases : j = 1%nat \/ j = 2%nat) by lia.
    destruct Hcases as [-> | ->]; reflexivity.
  - reflexivity.
Defined.

(** X6 at a concrete input: four polls on an engine that needs ten. *)
Lemma disable_wait_has_no_timeout_witness :
  gz_set_mode 4 GZ_MODE_HOST (link_in GZ_MODE_DEVICE, 10%nat) = None /\
  gz_deinit 4 (link_in GZ_MODE_DEVICE, 10%nat) = None.
Proof.
  apply disable_wait_has_no_timeout.
  - reflexivity.
  - intros j Hj.
    assert (Hcases : j = 1%nat \/ j = 2%nat \/ j = 3%nat \/ j = 4%nat) by lia.
    destruct Hcases as [-> | [-> | [-> | ->]]]; reflexivity.
Defined.

(** X7 at a concrete input: a running Device link switched to Host. *)
Lemma set_mode_succeeds_witness :
  exists w',
    gz_set_mode 1 GZ_MODE_HOST (link_in GZ_MODE_DEVICE, Mock.running) =
      Some (GZ_OK, w') /\
    mode (fst w') = GZ_MODE_HOST /\
    Mock.log (snd w') =
      [Mock.TDisable; Mock.TInit NRF_GZLL_MODE_HOST; Mock.TEnable] /\
    nrf_gzll_is_enabled (snd w') = true.
Proof.
  eexists. split.
  - eapply (set_mode_succeeds 1 1 GZ_MODE_HOST (link_in GZ_MODE_DEVICE)
              Mock.running).
    + reflexivity.
    + right. reflexivity.
    + reflexivity.
    + lia.
    + reflexivity.
    + reflexivity.
  - repeat split.
Defined.

(** X8 at a concrete input: a switch to Host on an engine whose
    re-initialisation fails leaves the Device role. *)
Lemma set_mode_writes_role_only_on_ok_witness :
  exists w',
    gz_set_mode 1 GZ_MODE_HOST (link_in GZ_MODE_DEVICE, failing_restart) =
      Some (GZ_ERR_HARDWARE, w') /\
    initialized (fst w') = true /\
    mode (fst w') = GZ_MODE_DEVICE.
Proof.
  edestruct (set_mode_writes_role_only_on_ok 1 GZ_MODE_HOST
               (link_in GZ_MODE_DEVICE, failing_restart) GZ_ERR_HARDWARE)
    as (Hinit & _ & Hko); [reflexivity|].
  eexists. split; [reflexivity|].
  split; [exact Hinit|]. apply Hko. discriminate.
Defined.

(** X10 at a concrete input: the send that is acknowledged. *)
Lemma send_ok_only_after_success_witness :
  tx_success (fst (snd (gz_send (Some sample_packet) 3
                          (link_in GZ_MODE_DEVICE, acking)))) = true.
Proof.
  refine (proj1 (send_ok_only_after_success (Some sample_packet) 3
                   (link_in GZ_MODE_DEVICE, acking) _ _ _)).
  - lia.
  - vm_compute. reflexivity.
Defined.

(** X11 at a concrete input: the send that nobody answers. *)
Lemma send_wait_is_bounded_witness :
  exists j,
    (1 <= j <= 2 * Z.to_nat TX_TIMEOUT)%nat /\
    snd (gz_send (Some sample_packet) 3 (link_in GZ_MODE_DEVICE, silent)) =
      world_after j
        (set_tx_failed false (set_tx_success false (link_in GZ_MODE_DEVICE)),
         snd (Mock.add_packet 0 sample_packet 3 silent)) /\
    (fst (gz_send (Some sample_packet) 3 (link_in GZ_MODE_DEVICE, silent)) =
       GZ_OK \/
     fst (gz_send (Some sample_packet) 3 (link_in GZ_MODE_DEVICE, silent)) =
       GZ_ERR_SEND_FAILED).
Proof.
  apply (send_wait_is_bounded sample_packet 3 (link_in GZ_MODE_DEVICE) silent).
  - reflexivity.
  - reflexivity.
  - unfold MAX_PAYLOAD_LENGTH. lia.
  - reflexivity.
Defined.

(** X12 at concrete inputs, one per precondition. *)
Lemma recv_preconditions_in_order_witness :
  gz_recv (Some (caller_buffer 4)) (Some 7) 4 (gz_state_zero, Mock.idle) =
    Some {| rr_code := GZ_ERR_NOT_INITIALIZED; rr_buf := Some (caller_buffer 4);
            rr_len := Some 7; rr_world := (gz_state_zero, Mock.idle) |} /\
  gz_recv (Some (caller_buffer 4)) None 4 (host_with_packet, Mock.running) =
    Some {| rr_code := GZ_ERR_INVALID_CONFIG; rr_buf := Some (caller_buffer 4);
            rr_len := None; rr_world := (host_with_packet, Mock.running) |} /\
  gz_recv (Some (caller_buffer 4)) (Some 7) 4 (link_in GZ_MODE_DEVICE, Mock.running) =
    Some {| rr_code := GZ_ERR_INVALID_CONFIG; rr_buf := Some (caller_buffer 4);
            rr_len := Some 7;
            rr_world := (link_in GZ_MODE_DEVICE, Mock.running) |}.
Proof.
  split; [|split].
  - destruct (recv_preconditions_in_order (Some (caller_buffer 4)) (Some 7) 4
                (gz_state_zero, Mock.idle)) as (Hcase & _).
    apply Hcase. reflexivity.
  - destruct (recv_preconditions_in_order (Some (caller_buffer 4)) None 4
                (host_with_packet, Mock.running)) as (_ & Hcase & _).
    apply Hcase; [reflexivity|right; reflexivity].
  - destruct (recv_preconditions_in_order (Some (caller_buffer 4)) (Some 7) 4
                (link_in GZ_MODE_DEVICE, Mock.running)) as (_ & _ & Hcase).
    apply Hcase; [reflexivity|discriminate|discriminate|discriminate].
Defined.

(** X13 at a concrete input: a read with too little room. *)
Lemma recv_writes_only_rx_ready_witness :
  exists r,
    gz_recv (Some (caller_buffer 2)) (Some 7) 2 (host_with_packet, Mock.running) =
      Some r /\
    rr_code r = GZ_ERR_FRAME_TOO_LARGE /\
    rr_world r = (host_with_packet, Mock.running) /\
    rr_buf r = Some (caller_buffer 2) /\ rr_len r = Some 7.
Proof.
  edestruct (recv_writes_only_rx_ready (Some (caller_buffer 2)) (Some 7) 2
               (host_with_packet, Mock.running)) as (_ & _ & Hfail);
    [reflexivity|].
  eexists. split; [reflexivity|]. split; [reflexivity|].
  apply Hfail. discriminate.
Defined.

(** X14 at a concrete input: the first packet of the inbound queue. *)
Lemma delivery_then_recv_witness :
  exists r,
    gz_recv (Some (caller_buffer 4)) (Some 7) 4
      (nrf_gzll_host_rx_data_ready 0 (link_in GZ_MODE_HOST, delivering)) =
      Some r /\
    rr_code r = GZ_OK /\
    rr_buf r = Some (sample_packet ++ [Byte.xff]) /\
    rr_len r = Some 3 /\
    rx_ready (fst (rr_world r)) = false.
Proof.
  destruct (delivery_then_recv 0 (link_in GZ_MODE_HOST) delivering
              (sample_packet ++ replicate 29 Byte.x00) 3
              (snd (Mock.fetch 0 (rx_buffer (link_in GZ_MODE_HOST)) 32 delivering))
              (caller_buffer 4) 7 4)
    as (r & Hrun & Hcode & Hbuf & Hlen & Hready & _);
    try reflexivity; try (unfold MAX_PAYLOAD_LENGTH; simpl; lia).
  exists r. repeat split; assumption.
Defined.

(** X15 at a concrete input: both packets of the inbound queue arrive
    before the first read. *)
Lemma second_delivery_overwrites_first_witness :
  exists r,
    gz_recv (Some (caller_buffer 4)) (Some 7) 4
      (nrf_gzll_host_rx_data_ready 0
         (nrf_gzll_host_rx_data_ready 0 (link_in GZ_MODE_HOST, delivering))) =
      Some r /\
    rr_code r = GZ_OK /\
    rr_buf r = Some (other_packet ++ [Byte.xff; Byte.xff]) /\
    rr_len r = Some 2 /\
    gz_recv (Some (caller_buffer 4)) (Some 7) 4 (rr_world r) =
      Some {| rr_code := GZ_OK; rr_buf := Some (caller_buffer 4);
              rr_len := Some 0; rr_world := rr_world r |}.
Proof.
  destruct (second_delivery_overwrites_first 0 0 (link_in GZ_MODE_HOST) delivering
              (sample_packet ++ replicate 29 Byte.x00)
              (other_packet ++ [Byte.x30] ++ replicate 29 Byte.x00) 3 2
              (snd (Mock.fetch 0 (rx_buffer (link_in GZ_MODE_HOST)) 32 delivering))
              (snd (Mock.fetch 0 (sample_packet ++ replicate 29 Byte.x00) 32
                      (snd (Mock.fetch 0 (rx_buffer (link_in GZ_MODE_HOST)) 32
                              delivering))))
              (caller_buffer 4) 7 4)
    as (r & Hrun & Hcode & Hbuf & Hlen & Hagain);
    try reflexivity; try (unfold MAX_PAYLOAD_LENGTH; simpl; lia).
  exists r. repeat split; try assumption. apply Hagain.
Defined.

(** X16 at a concrete input: a receive event on an empty inbound queue
    while a 3-byte packet is pending; the read that follows has length 0. *)
Lemma failed_fetch_replaces_pending_packet_witness :
  rx_length host_with_packet = 3 /\
  exists r,
    gz_recv (Some (caller_buffer 4)) (Some 7) 4
      (nrf_gzll_host_rx_data_ready 0 (host_with_packet, Mock.running)) =
      Some r /\
    rr_code r = GZ_OK /\
    rr_buf r = Some (caller_buffer 4) /\
    rr_len r = Some 0 /\
    rx_ready (fst (rr_world r)) = false.
Proof.
  split; [reflexivity|].
  destruct (failed_fetch_replaces_pending_packet 0 host_with_packet Mock.running
              (rx_buffer host_with_packet) 0
              (Mock.note (Mock.TFetch 0) Mock.running)
              (caller_buffer 4) 7 4)
    as (r & Hrun & Hcode & Hbuf & Hlen & Hready);
    try reflexivity; try (unfold MAX_PAYLOAD_LENGTH; simpl; lia).
  exists r. repeat split; assumption.
Defined.

(** X17 at a concrete input: a flush with a packet pending. *)
Lemma flush_then_recv_is_empty_witness :
  rx_ready host_with_packet = true /\
  gz_recv (Some (caller_buffer 4)) (Some 7) 4
    (snd (gz_flush (host_with_packet, Mock.running))) =
    Some {| rr_code := GZ_OK; rr_buf := Some (caller_buffer 4); rr_len := Some 0;
            rr_world := snd (gz_flush (host_with_packet, Mock.running)) |}.
Proof.
  split; [reflexivity|].
  apply (flush_then_recv_is_empty host_with_packet Mock.running); reflexivity.
Defined.

Section CallbackInvariant.

Context {engine : Type} `{GazellEngine engine}.

Implicit Types (w : world engine).

Lemma dispatch_only_sets w ev :
  (rx_ready (fst w) = true -> rx_ready (fst (dispatch w ev)) = true) /\
  (tx_success (fst w) = true -> tx_success (fst (dispatch w ev)) = true) /\
  (tx_failed (fst w) = true -> tx_failed (fst (dispatch w ev)) = true).
Proof.
  destruct ev as [pipe|pipe|pipe|]; simpl; auto.
  unfold nrf_gzll_host_rx_data_ready.
  destruct (nrf_gzll_fetch_packet_from_rx_fifo _ _ _ _) as [[[ok buf] len] e'].
  destruct ok; simpl; auto.
Qed.

Lemma preempt_only_sets w :
  (rx_ready (fst w) = true -> rx_ready (fst (preempt w)) = true) /\
  (tx_success (fst w) = true -> tx_success (fst (preempt w)) = true) /\
  (tx_failed (fst w) = true -> tx_failed (fst (preempt w)) = true).
Proof.
  unfold preempt. destruct (radio_activity (snd w)) as [evs e'].
  change (rx_ready (fst w)) with (rx_ready (fst (fst w, e'))).
  change (tx_success (fst w)) with (tx_success (fst (fst w, e'))).
  change (tx_failed (fst w)) with (tx_failed (fst (fst w, e'))).
  generalize (fst w, e'). induction evs as [|ev evs IH]; intros w0; simpl.
  - auto.
  - destruct (dispatch_only_sets w0 ev) as (Hr & Hs & Hf).
    destruct (IH (dispatch w0 ev)) as (Hr' & Hs' & Hf').
    auto.
Qed.

(** X19. The completion callbacks only ever set flags: across any number
    of preemption points, whatever events the engine raises, a flag
    ([rx_ready], [tx_success], [tx_failed]) that was set stays set, and
    [initialized] and the role are not written.  Only the operations
    clear flags. *)
Theorem callbacks_never_clear_flags (k : nat) w :
  (rx_ready (fst w) = true -> rx_ready (fst (world_after k w)) = true) /\
  (tx_success (fst w) = true -> tx_success (fst (world_after k w)) = true) /\
  (tx_failed (fst w) = true -> tx_failed (fst (world_after k w)) = true) /\
  initialized (fst (world_after k w)) = initialized (fst w) /\
  mode (fst (world_after k w)) = mode (fst w).
Proof.
  induction k as [|k IH]; simpl; [auto|].
  destruct IH as (Hr & Hs & Hf & Hi & Hm).
  destruct (preempt_only_sets (world_after k w)) as (Hr' & Hs' & Hf').
  destruct (preempt_keeps_lifecycle (world_after k w)) as [Hi' Hm'].
  rewrite Hi', Hm'. repeat split; auto.
Qed.

End CallbackInvariant.

(** X19 at a concrete input: a link with [tx_failed] set, across the
    five preemption points in which the ACK arrives. *)
Lemma callbacks_never_clear_flags_witness :
  tx_failed (fst (world_after 5
                    (set_tx_failed true (link_in GZ_MODE_DEVICE), acking))) = true /\
  tx_success (fst (world_after 5
                     (set_tx_failed true (link_in GZ_MODE_DEVICE), acking))) = true.
Proof.
  destruct (callbacks_never_clear_flags 5
              (set_tx_failed true (link_in GZ_MODE_DEVICE), acking))
    as (_ & _ & Hf & _).
  split; [apply Hf; reflexivity|reflexivity].
Defined.
